(** * DUID decoder (dec.py): a shallow embedding and its properties

    The script takes one DHCP Unique Identifier as a hexadecimal string,
    turns it into bytes, reads the fields of the four RFC 8415 DUID types
    from a byte stream and prints them.  The embedding keeps that shape:
    Python [str] is [string], [bytes] is [list byte], Python [int] is [Z],
    [io.BytesIO] is a buffer with a read position, [print] appends a line to
    the standard output, [raise] is an error result and [sys.exit] ends the
    run with a status.

    The library functions the script calls ([bytes.fromhex], [bytes.hex],
    [struct.unpack], [uuid.UUID], [datetime]) are embedded after their
    CPython implementation. *)

From Stdlib Require Import ZArith NArith List String Ascii Bool Lia.
From Stdlib Require Import DecimalString.
From Stdlib.Strings Require Import Byte.
Import ListNotations.

Local Open Scope string_scope.
Local Open Scope Z_scope.

(** ** Bytes and characters *)

Definition bytes := list byte.

(** The integer a byte stands for, [0 <= Zb b < 256]. *)
Definition Zb (b : byte) : Z := Z.of_N (Byte.to_N b).

(** The byte of an integer in range ([(unsigned char) z] in C). *)
Definition byte_of_Z (z : Z) : byte :=
  match Byte.of_N (Z.to_N z) with
  | Some b => b
  | None => x00
  end.

Arguments Zb : simpl never.
Arguments byte_of_Z : simpl never.

(** The code point of a character.  A [string] holds code points up to 255;
    a character beyond them is neither a colon, nor whitespace, nor a digit,
    and is treated by [fromhex] as any other character that is none of
    these. *)
Definition ord (c : ascii) : Z := Z.of_N (N_of_ascii c).

Module PyStr.

(** [s.replace(':', '')] *)
Fixpoint replace_colon (s : string) : string :=
  match s with
  | EmptyString => EmptyString
  | String c r =>
    if Ascii.eqb c ":" then replace_colon r else String c (replace_colon r)
  end.

(** [range(0, n, 2)] *)
Definition range2 (n : nat) : list nat :=
  map (fun k => (2 * k)%nat) (seq 0 (Nat.div2 (n + 1))).

(** [sep.join(s[i:i+2] for i in range(0, len(s), 2))] *)
Definition join_pairs (sep s : string) : string :=
  String.concat sep (map (fun i => substring i 2 s) (range2 (String.length s))).

(** [str(n)] for an [int] *)
Definition str (n : Z) : string := NilZero.string_of_int (Z.to_int n).

End PyStr.

Module PyBytes.

(** [Py_ISSPACE]: space, and the control characters tab to carriage
    return. *)
Definition Py_ISSPACE (c : ascii) : bool :=
  ((9 <=? ord c) && (ord c <=? 13)) || (ord c =? 32).

(** [_PyLong_DigitValue]: the value of a digit in base 36, and 37 for a
    character that is not one. *)
Definition PyLong_DigitValue (c : ascii) : Z :=
  let n := ord c in
  if (48 <=? n) && (n <=? 57) then n - 48
  else if (97 <=? n) && (n <=? 122) then n - 87
  else if (65 <=? n) && (n <=? 90) then n - 55
  else 37.

(** [bytes.fromhex(s)]: two hexadecimal digits per byte; ASCII whitespace
    in front of a pair (and after the last one) is skipped.  [None] is the
    [ValueError] it raises. *)
Fixpoint fromhex (s : string) : option bytes :=
  match s with
  | EmptyString => Some []
  | String c rest =>
    if Py_ISSPACE c then fromhex rest
    else
      let top := PyLong_DigitValue c in
      if 16 <=? top then None
      else
        match rest with
        | EmptyString => None
        | String d rest' =>
          let bot := PyLong_DigitValue d in
          if 16 <=? bot then None
          else option_map (cons (byte_of_Z (Z.shiftl top 4 + bot))) (fromhex rest')
        end
  end.

(** [Py_hexdigits] *)
Definition Py_hexdigits : string := "0123456789abcdef".

Definition hexdigit (n : Z) : ascii :=
  match get (Z.to_nat n) Py_hexdigits with
  | Some c => c
  | None => "0"%char
  end.

(** The two digits [bytes.hex()] writes for one byte. *)
Definition hex_byte (b : byte) : string :=
  String (hexdigit (Z.land (Z.shiftr (Zb b) 4) 15))
         (String (hexdigit (Z.land (Zb b) 15)) EmptyString).

(** [bs.hex()] *)
Fixpoint hex (bs : bytes) : string :=
  match bs with
  | [] => EmptyString
  | b :: r => hex_byte b ++ hex r
  end.

(** [int.from_bytes(bs, byteorder='big')] *)
Definition from_bytes_big (bs : bytes) : Z :=
  fold_left (fun acc b => acc * 256 + Zb b) bs 0.

End PyBytes.

(** ** The input normalizer (dec.py, line 51) *)

Definition normalize (duid_hex_string : string) : option bytes :=
  PyBytes.fromhex (PyStr.replace_colon duid_hex_string).

(** ** Vocabulary of the statements *)

(** A character of [[0-9a-fA-F]]. *)
Definition is_hexdigit (c : ascii) : bool :=
  ((48 <=? ord c) && (ord c <=? 57))
  || ((97 <=? ord c) && (ord c <=? 102))
  || ((65 <=? ord c) && (ord c <=? 70)).

Fixpoint all_chars (p : ascii -> bool) (s : string) : bool :=
  match s with
  | EmptyString => true
  | String c r => p c && all_chars p r
  end.

(** Letter-case normalization of the ASCII letters. *)
Definition lower_char (c : ascii) : ascii :=
  if (65 <=? ord c) && (ord c <=? 90) then ascii_of_N (Z.to_N (ord c + 32)) else c.

Fixpoint lower (s : string) : string :=
  match s with
  | EmptyString => EmptyString
  | String c r => String (lower_char c) (lower r)
  end.

(** The value of the hexadecimal digit at an index of a string (0 past its
    end). *)
Definition digit_at (s : string) (i : nat) : Z :=
  match get i s with
  | Some c => PyBytes.PyLong_DigitValue c
  | None => 0
  end.


(** ** struct, uuid and datetime *)

Module Struct.

(** [struct.unpack('!H', b)[0]] and [struct.unpack('!I', b)[0]]: a
    big-endian unsigned integer of [size] bytes; [None] is the
    [struct.error] raised when the buffer has another length. *)
Definition unpack_be (size : nat) (b : bytes) : option Z :=
  if Nat.eqb (List.length b) size then Some (PyBytes.from_bytes_big b) else None.

Definition unpack_H : bytes -> option Z := unpack_be 2.
Definition unpack_I : bytes -> option Z := unpack_be 4.

End Struct.

Module Uuid.

(** ['%x' % n] for [0 <= n]: the hexadecimal digits of [n], most
    significant first, without leading zeros. *)
Fixpoint hex_of_Z_fuel (fuel : nat) (n : Z) : string :=
  match fuel with
  | O => EmptyString
  | S f =>
    if n <? 16 then String (PyBytes.hexdigit n) EmptyString
    else hex_of_Z_fuel f (n / 16) ++ String (PyBytes.hexdigit (n mod 16)) EmptyString
  end.

Definition format_x (n : Z) : string :=
  hex_of_Z_fuel (S (Z.to_nat (Z.log2 n))) n.

Fixpoint zeros (k : nat) : string :=
  match k with
  | O => EmptyString
  | S k' => String "0" (zeros k')
  end.

(** ['%032x' % n] *)
Definition format_032x (n : Z) : string :=
  let h := format_x n in zeros (32 - String.length h) ++ h.

(** [uuid.UUID(bytes=b)]: [None] is the [ValueError] for a length other
    than 16; the object holds [int.from_bytes(b, 'big')]. *)
Definition UUID (b : bytes) : option Z :=
  if Nat.eqb (List.length b) 16 then Some (PyBytes.from_bytes_big b) else None.

(** [str(uuid_obj)] *)
Definition str (int : Z) : string :=
  let h := format_032x int in
  substring 0 8 h ++ "-" ++ substring 8 4 h ++ "-" ++ substring 12 4 h ++ "-"
  ++ substring 16 4 h ++ "-" ++ substring 20 (String.length h - 20) h.

End Uuid.

Module Datetime.

Definition _DAYS_IN_MONTH : list Z := [-1; 31; 28; 31; 30; 31; 30; 31; 31; 30; 31; 30; 31].
Definition _DAYS_BEFORE_MONTH : list Z :=
  [-1; 0; 31; 59; 90; 120; 151; 181; 212; 243; 273; 304; 334].

Definition _is_leap (year : Z) : bool :=
  (year mod 4 =? 0) && (negb (year mod 100 =? 0) || (year mod 400 =? 0)).

Definition _days_before_year (year : Z) : Z :=
  let y := year - 1 in y * 365 + y / 4 - y / 100 + y / 400.

Definition _days_before_month (year month : Z) : Z :=
  nth (Z.to_nat month) _DAYS_BEFORE_MONTH 0
  + (if (month >? 2) && _is_leap year then 1 else 0).

Definition _ymd2ord (year month day : Z) : Z :=
  _days_before_year year + _days_before_month year month + day.

Definition _DI400Y : Z := Eval cbv in _days_before_year 401.
Definition _DI100Y : Z := Eval cbv in _days_before_year 101.
Definition _DI4Y : Z := Eval cbv in _days_before_year 5.
Definition _MAXORDINAL : Z := 3652059.

Definition _ord2ymd (n0 : Z) : Z * Z * Z :=
  let n := n0 - 1 in
  let n400 := n / _DI400Y in
  let n := n mod _DI400Y in
  let year := n400 * 400 + 1 in
  let n100 := n / _DI100Y in
  let n := n mod _DI100Y in
  let n4 := n / _DI4Y in
  let n := n mod _DI4Y in
  let n1 := n / 365 in
  let n := n mod 365 in
  let year := year + n100 * 100 + n4 * 4 + n1 in
  if (n1 =? 4) || (n100 =? 4) then (year - 1, 12, 31)
  else
    let leapyear := (n1 =? 3) && (negb (n4 =? 24) || (n100 =? 3)) in
    let month := Z.shiftr (n + 50) 5 in
    let preceding :=
      nth (Z.to_nat month) _DAYS_BEFORE_MONTH 0
      + (if (month >? 2) && leapyear then 1 else 0) in
    if preceding >? n then
      let month := month - 1 in
      let preceding :=
        preceding - (nth (Z.to_nat month) _DAYS_IN_MONTH 0
                     + (if (month =? 2) && leapyear then 1 else 0)) in
      (year, month, n - preceding + 1)
    else (year, month, n - preceding + 1).

(** A [timedelta], normalized to days and seconds of the day (the
    microseconds are 0 throughout the script). *)
Record timedelta := { days : Z; seconds : Z }.

(** [timedelta(days=d, seconds=s)]; [None] is its [OverflowError]. *)
Definition mk_timedelta (d s : Z) : option timedelta :=
  let d' := d + s / 86400 in
  if Z.abs d' >? 999999999 then None
  else Some {| days := d'; seconds := s mod 86400 |}.

(** An aware [datetime] in UTC with no microseconds. *)
Record datetime :=
  { year : Z; month : Z; day : Z; hour : Z; minute : Z; second : Z }.

Definition toordinal (dt : datetime) : Z :=
  _ymd2ord (year dt) (month dt) (day dt).

(** [dt + td] ([datetime.__add__]); [None] is its [OverflowError]. *)
Definition add (dt : datetime) (td : timedelta) : option datetime :=
  match mk_timedelta (toordinal dt)
                     (hour dt * 3600 + minute dt * 60 + second dt) with
  | None => None
  | Some delta =>
    match mk_timedelta (days delta + days td) (seconds delta + seconds td) with
    | None => None
    | Some delta =>
      let hour := seconds delta / 3600 in
      let rem := seconds delta mod 3600 in
      let minute := rem / 60 in
      let second := rem mod 60 in
      if (0 <? days delta) && (days delta <=? _MAXORDINAL) then
        let '(y, m, d) := _ord2ymd (days delta) in
        Some {| year := y; month := m; day := d;
                hour := hour; minute := minute; second := second |}
      else None
    end
  end.

(** ['%0wd' % n] for [0 <= n] *)
Definition zpad (w : nat) (n : Z) : string :=
  let s := PyStr.str n in Uuid.zeros (w - String.length s) ++ s.

(** [dt.isoformat()] *)
Definition isoformat (dt : datetime) : string :=
  zpad 4 (year dt) ++ "-" ++ zpad 2 (month dt) ++ "-" ++ zpad 2 (day dt) ++ "T"
  ++ zpad 2 (hour dt) ++ ":" ++ zpad 2 (minute dt) ++ ":" ++ zpad 2 (second dt)
  ++ "+00:00".

End Datetime.

(** ** The script *)

(** The tables of dec.py, lines 27 to 37. *)
Definition duid_types : list (Z * string) :=
  [ (1, "DUID-LLT - Link-layer address plus time");
    (2, "DUID-EN - Vendor-assigned unique ID based on Enterprise Number");
    (3, "DUID-LL - Link-layer address");
    (4, "DUID-UUID - Universally Unique IDentifier") ].

Definition hw_types : list (Z * string) := [ (1, "Ethernet") ].

(** [d.get(k, default)] *)
Fixpoint dict_get (d : list (Z * string)) (k : Z) (default : string) : string :=
  match d with
  | [] => default
  | (k', v) :: d' => if k' =? k then v else dict_get d' k default
  end.

(** The [ValueError]s the decoding raises, one per [raise] of the script,
    and the one of [uuid.UUID]. *)
Inductive value_error :=
| LLT_too_short
| LLT_negative_length
| EN_too_short
| EN_negative_length
| LL_too_short
| LL_negative_length
| UUID_length (expected_len total_duid_length : Z)
| UUID_bytes.

Inductive exn :=
| struct_error (size : nat)
| ValueError (e : value_error).

Definition value_error_message (e : value_error) : string :=
  match e with
  | LLT_too_short => "DUID-LLT is too short for fixed fields"
  | LLT_negative_length => "Calculated negative address length for DUID-LLT"
  | EN_too_short => "DUID-EN is too short for fixed fields"
  | EN_negative_length => "Calculated negative identifier length for DUID-EN"
  | LL_too_short => "DUID-LL is too short for fixed fields"
  | LL_negative_length => "Calculated negative address length for DUID-LL"
  | UUID_length expected_len total_duid_length =>
    "DUID-UUID must be exactly " ++ PyStr.str expected_len
    ++ " bytes long, found " ++ PyStr.str total_duid_length
  | UUID_bytes => "bytes is not a 16-char string"
  end.

Definition exn_message (e : exn) : string :=
  match e with
  | struct_error size =>
    "unpack requires a buffer of " ++ PyStr.str (Z.of_nat size) ++ " bytes"
  | ValueError e => value_error_message e
  end.

(** What the script acts on: the [BytesIO] object [data] (its buffer and
    read position) and the lines printed so far. *)
Record world := { data_buf : bytes; data_pos : nat; stdout : list string }.

Inductive result (A : Type) :=
| Ok (a : A)
| Raise (e : exn).

Arguments Ok {A} a.
Arguments Raise {A} e.

(** A statement: it changes the world and returns or raises. *)
Definition M (A : Type) : Type := world -> result A * world.

Definition ret {A} (a : A) : M A := fun w => (Ok a, w).

Definition bind {A B} (m : M A) (k : A -> M B) : M B :=
  fun w =>
    match m w with
    | (Ok a, w') => k a w'
    | (Raise e, w') => (Raise e, w')
    end.

Definition raise {A} (e : exn) : M A := fun w => (Raise e, w).

Notation "x <- m ;; k" := (bind m (fun x => k))
  (at level 61, m at next level, right associativity).
Notation "m ;;; k" := (bind m (fun _ => k))
  (at level 61, right associativity).

(** [if c: raise e] *)
Definition raise_if (c : bool) (e : exn) : M unit :=
  if c then raise e else ret tt.

Definition print (line : string) : M unit :=
  fun w => (Ok tt, {| data_buf := data_buf w; data_pos := data_pos w;
                      stdout := stdout w ++ [line] |}).

(** [data.read(size)]: at most [size] bytes from the position on, all of
    them for a negative [size]; the position moves past what was read. *)
Definition read (size : Z) : M bytes :=
  fun w =>
    let rest := skipn (data_pos w) (data_buf w) in
    let b := if size <? 0 then rest else firstn (Z.to_nat size) rest in
    (Ok b, {| data_buf := data_buf w; data_pos := data_pos w + List.length b;
              stdout := stdout w |}).

(** [data.read()] *)
Definition read_all : M bytes := read (-1).

Definition unpack_H (b : bytes) : M Z :=
  match Struct.unpack_H b with
  | Some v => ret v
  | None => raise (struct_error 2)
  end.

Definition unpack_I (b : bytes) : M Z :=
  match Struct.unpack_I b with
  | Some v => ret v
  | None => raise (struct_error 4)
  end.

Definition duid_epoch : Datetime.datetime :=
  {| Datetime.year := 2000; Datetime.month := 1; Datetime.day := 1;
     Datetime.hour := 0; Datetime.minute := 0; Datetime.second := 0 |}.

(** [duid_epoch + datetime.timedelta(seconds=time_val)]; [None] is the
    [OverflowError] of either operation. *)
Definition actual_datetime (time_val : Z) : option Datetime.datetime :=
  match Datetime.mk_timedelta 0 time_val with
  | Some td => Datetime.add duid_epoch td
  | None => None
  end.

(** Lines 87 to 98: the timestamp, or the warning of the handler. *)
Definition print_timestamp (time_val : Z) : M unit :=
  match actual_datetime time_val with
  | Some dt => print ("Calculated Timestamp (UTC): " ++ Datetime.isoformat dt)
  | None =>
    print ("Warning: time_val (" ++ PyStr.str time_val
           ++ ") is too large to represent as a standard datetime.")
  end.

(** Lines 106 to 111 and 138 to 143. *)
Definition print_lla (hw_type_code address_len : Z) (lla_bytes : bytes) : M unit :=
  let lla_hex := PyBytes.hex lla_bytes in
  if (hw_type_code =? 1) && (address_len =? 6) then
    print ("Link-layer Address: " ++ PyStr.join_pairs ":" lla_hex)
  else
    print ("Link-layer Address: " ++ PyStr.join_pairs ":" lla_hex ++ " (Hex)").

Definition print_hw_type (hw_type_code : Z) : M unit :=
  let hw_type_name := dict_get hw_types hw_type_code "Unknown" in
  print ("Hardware Type: " ++ PyStr.str hw_type_code ++ " [" ++ hw_type_name ++ "]").

(** The body of the [try] statement, lines 70 to 161. *)
Definition decode_body (total_duid_length : Z) : M unit :=
  b <- read 2 ;;
  duid_type_code <- unpack_H b ;;
  let duid_type_name := dict_get duid_types duid_type_code "Unknown" in
  print ("DUID Type: " ++ PyStr.str duid_type_code ++ " [" ++ duid_type_name ++ "]") ;;;
  if duid_type_code =? 1 then
    raise_if (total_duid_length <? 8) (ValueError LLT_too_short) ;;;
    b <- read 2 ;;
    hw_type_code <- unpack_H b ;;
    print_hw_type hw_type_code ;;;
    b <- read 4 ;;
    time_val <- unpack_I b ;;
    print ("Seconds since midnight (UTC), January 1, 2000: " ++ PyStr.str time_val) ;;;
    print_timestamp time_val ;;;
    let address_len := total_duid_length - 8 in
    raise_if (address_len <? 0) (ValueError LLT_negative_length) ;;;
    lla_bytes <- read address_len ;;
    print_lla hw_type_code address_len lla_bytes
  else if duid_type_code =? 2 then
    raise_if (total_duid_length <? 6) (ValueError EN_too_short) ;;;
    b <- read 4 ;;
    enterprise_num <- unpack_I b ;;
    print ("Enterprise Number: " ++ PyStr.str enterprise_num) ;;;
    let identifier_len := total_duid_length - 6 in
    raise_if (identifier_len <? 0) (ValueError EN_negative_length) ;;;
    identifier_bytes <- read identifier_len ;;
    print ("Identifier: 0x" ++ PyBytes.hex identifier_bytes)
  else if duid_type_code =? 3 then
    raise_if (total_duid_length <? 4) (ValueError LL_too_short) ;;;
    b <- read 2 ;;
    hw_type_code <- unpack_H b ;;
    print_hw_type hw_type_code ;;;
    let address_len := total_duid_length - 4 in
    raise_if (address_len <? 0) (ValueError LL_negative_length) ;;;
    lla_bytes <- read address_len ;;
    print_lla hw_type_code address_len lla_bytes
  else if duid_type_code =? 4 then
    let expected_len := 18 in
    raise_if (negb (total_duid_length =? expected_len))
             (ValueError (UUID_length expected_len total_duid_length)) ;;;
    uuid_bytes <- read 16 ;;
    match Uuid.UUID uuid_bytes with
    | Some uuid_obj => print ("UUID: " ++ Uuid.str uuid_obj)
    | None => raise (ValueError UUID_bytes)
    end
  else
    print "Unknown DUID Type. Unable to decode further." ;;;
    remaining_bytes <- read_all ;;
    match remaining_bytes with
    | [] => ret tt
    | _ :: _ => print ("Remaining undecoded data: 0x" ++ PyBytes.hex remaining_bytes)
    end.

(** A line feed, for the messages that start with one. *)
Definition LF : string := String (ascii_of_nat 10) EmptyString.

(** The handlers of the [try] statement, lines 163 to 173. *)
Definition handler (e : exn) : list string :=
  match e with
  | struct_error _ =>
    [ LF ++ "Error: Could not unpack data. The DUID might be truncated or malformed for the declared type.";
      "Details: " ++ exn_message e ]
  | ValueError _ =>
    [ LF ++ "Error: Invalid DUID data for the declared type.";
      "Details: " ++ exn_message e ]
  end.

(** What a run of the script leaves: the lines printed and the exit
    status. *)
Record run := { output : list string; status : Z }.

(** The world in which the [try] statement starts, lines 62 to 66. *)
Definition start (duid_hex_string : string) (duid_bytes : bytes) : world :=
  {| data_buf := duid_bytes; data_pos := 0;
     stdout := [ "Input DUID Hex: " ++ duid_hex_string;
                 "Total DUID Length: " ++ PyStr.str (Z.of_nat (List.length duid_bytes))
                 ++ " bytes" ] |}.

(** The [try] statement run on the bytes of the input. *)
Definition try_decode (duid_hex_string : string) (duid_bytes : bytes)
  : result unit * world :=
  decode_body (Z.of_nat (List.length duid_bytes)) (start duid_hex_string duid_bytes).

(** The check of lines 175 to 179: the lines it prints. *)
Definition remaining_check (w : world) : list string :=
  match fst (read_all w) with
  | Ok [] => []
  | Ok remaining_bytes =>
    [ LF ++ "Warning: " ++ PyStr.str (Z.of_nat (List.length remaining_bytes))
      ++ " bytes remaining in the input after decoding.";
      "Remaining data: 0x" ++ PyBytes.hex remaining_bytes ]
  | Raise _ => []
  end.

(** Lines 57 to 179: the script from the bytes on. *)
Definition decode (duid_hex_string : string) (duid_bytes : bytes) : run :=
  if (Z.of_nat (List.length duid_bytes) <? 2) then
    {| output :=
         [ "Error: DUID is too short ("
           ++ PyStr.str (Z.of_nat (List.length duid_bytes))
           ++ " bytes). Must be at least 2 bytes for the type field." ];
       status := 1 |}
  else
    match try_decode duid_hex_string duid_bytes with
    | (Raise e, w) => {| output := stdout w ++ handler e; status := 1 |}
    | (Ok _, w) => {| output := stdout w ++ remaining_check w; status := 0 |}
    end.

(** The whole script, from [sys.argv]. *)
Definition main (argv : list string) : run :=
  match argv with
  | [_; duid_hex_string] =>
    match normalize duid_hex_string with
    | None =>
      {| output :=
           [ "Error: Invalid hex string format provided: '" ++ duid_hex_string ++ "'";
             "Ensure the string contains only hex characters (0-9, a-f, A-F) and optional colons." ];
         status := 1 |}
    | Some duid_bytes => decode duid_hex_string duid_bytes
    end
  | _ =>
    {| output :=
         [ "Usage: decode_duid.py <DUID_hex_string>";
           "Example: decode_duid.py 00:01:00:01:2c:3d:4e:5f:aa:bb:cc:dd:ee:ff";
           "DUID hex string is missing or extra arguments provided. Please try again." ];
       status := 1 |}
  end.

(** ** Vocabulary of the statements about the decoding *)

(** The discriminant: the first two bytes, read as a big-endian unsigned
    integer, when there are two. *)
Definition discriminant (duid_bytes : bytes) : option Z :=
  Struct.unpack_H (firstn 2 duid_bytes).

(** The line [print_timestamp] prints. *)
Definition timestamp_line (time_val : Z) : string :=
  match actual_datetime time_val with
  | Some dt => "Calculated Timestamp (UTC): " ++ Datetime.isoformat dt
  | None =>
    "Warning: time_val (" ++ PyStr.str time_val
    ++ ") is too large to represent as a standard datetime."
  end.

(** The line [print_hw_type] prints. *)
Definition hw_type_line (hw_type_code : Z) : string :=
  "Hardware Type: " ++ PyStr.str hw_type_code
  ++ " [" ++ dict_get hw_types hw_type_code "Unknown" ++ "]".

(** The hexadecimal pairs of the bytes, one pair per byte, with colons
    between them. *)
Definition colon_pairs (bs : bytes) : string :=
  String.concat ":" (map PyBytes.hex_byte bs).

(** Whether a string has a colon. *)
Fixpoint has_colon (s : string) : bool :=
  match s with
  | EmptyString => false
  | String c r => Ascii.eqb c ":" || has_colon r
  end.

(** What [print_lla] writes after ["Link-layer Address: "]. *)
Definition lla_rendering (hw_type_code address_len : Z) (lla_bytes : bytes) : string :=
  if (hw_type_code =? 1) && (address_len =? 6) then
    PyStr.join_pairs ":" (PyBytes.hex lla_bytes)
  else
    PyStr.join_pairs ":" (PyBytes.hex lla_bytes) ++ " (Hex)".

(** The hardware type of a DUID-LLT or DUID-LL: bytes 2 and 3. *)
Definition hardware_type (duid_bytes : bytes) : Z :=
  PyBytes.from_bytes_big (firstn 2 (skipn 2 duid_bytes)).

(** The time of a DUID-LLT: bytes 4 to 7. *)
Definition time_offset (duid_bytes : bytes) : Z :=
  PyBytes.from_bytes_big (firstn 4 (skipn 4 duid_bytes)).

(** The length of the fixed fields of a DUID type, the discriminant
    included. *)
Definition fixed_header_length (duid_type_code : Z) : nat :=
  if duid_type_code =? 1 then 8
  else if duid_type_code =? 2 then 6
  else if duid_type_code =? 3 then 4
  else 2.

(** The link-layer address of a DUID-LLT or DUID-LL: the bytes after the
    fixed fields. *)
Definition link_layer_address (duid_bytes : bytes) : bytes :=
  match discriminant duid_bytes with
  | Some t => skipn (fixed_header_length t) duid_bytes
  | None => []
  end.

(** An Ethernet address of six bytes. *)
Definition ethernet_mac (duid_bytes : bytes) : bool :=
  (hardware_type duid_bytes =? 1)
  && (Z.of_nat (List.length (link_layer_address duid_bytes)) =? 6).

(** The decoding succeeds: the script reaches its end, with status 0. *)
Definition succeeds (r : run) : Prop := status r = 0.

(** The run printed the link-layer address last, rendered as [rendering]. *)
Definition renders_lla (r : run) (rendering : string) : Prop :=
  last (output r) EmptyString = "Link-layer Address: " ++ rendering.

(** The canonical text of a UUID: the hexadecimal digits of its 16 bytes in
    order, in groups of 8, 4, 4, 4 and 12. *)
Definition canonical_uuid (payload : bytes) : string :=
  let h := PyBytes.hex payload in
  substring 0 8 h ++ "-" ++ substring 8 4 h ++ "-" ++ substring 12 4 h ++ "-"
  ++ substring 16 4 h ++ "-" ++ substring 20 12 h.

(** The line of the too-short error, line 58. *)
Definition too_short_line (n : nat) : string :=
  "Error: DUID is too short (" ++ PyStr.str (Z.of_nat n)
  ++ " bytes). Must be at least 2 bytes for the type field.".

(** The two lines every decoding starts with, lines 65 and 66. *)
Definition header_lines (duid_hex_string : string) (duid_bytes : bytes) : list string :=
  stdout (start duid_hex_string duid_bytes).

(** The line of the DUID type, line 73. *)
Definition type_line (duid_type_code : Z) : string :=
  "DUID Type: " ++ PyStr.str duid_type_code
  ++ " [" ++ dict_get duid_types duid_type_code "Unknown" ++ "]".

(** The lines a decoding prints after the two of the header when it reaches
    the end of a branch, by DUID type. *)
Definition LLT_lines (duid_bytes : bytes) : list string :=
  [ type_line 1;
    hw_type_line (hardware_type duid_bytes);
    "Seconds since midnight (UTC), January 1, 2000: " ++ PyStr.str (time_offset duid_bytes);
    timestamp_line (time_offset duid_bytes);
    "Link-layer Address: "
    ++ lla_rendering (hardware_type duid_bytes)
                     (Z.of_nat (List.length (skipn 8 duid_bytes))) (skipn 8 duid_bytes) ].

Definition EN_lines (duid_bytes : bytes) : list string :=
  [ type_line 2;
    "Enterprise Number: "
    ++ PyStr.str (PyBytes.from_bytes_big (firstn 4 (skipn 2 duid_bytes)));
    "Identifier: 0x" ++ PyBytes.hex (skipn 6 duid_bytes) ].

Definition LL_lines (duid_bytes : bytes) : list string :=
  [ type_line 3;
    hw_type_line (hardware_type duid_bytes);
    "Link-layer Address: "
    ++ lla_rendering (hardware_type duid_bytes)
                     (Z.of_nat (List.length (skipn 4 duid_bytes))) (skipn 4 duid_bytes) ].

Definition UUID_lines (duid_bytes : bytes) : list string :=
  [ type_line 4;
    "UUID: " ++ Uuid.str (PyBytes.from_bytes_big (skipn 2 duid_bytes)) ].

Definition unknown_lines (duid_type_code : Z) (duid_bytes : bytes) : list string :=
  [ type_line duid_type_code; "Unknown DUID Type. Unable to decode further." ]
  ++ match skipn 2 duid_bytes with
     | [] => []
     | _ :: _ => [ "Remaining undecoded data: 0x" ++ PyBytes.hex (skipn 2 duid_bytes) ]
     end.

(** What the [try] statement comes to on the bytes of the input: how it
    ends, where the read position is then, and the lines printed after the
    header.  The properties below are read off this summary, which
    [try_decode_summary] proves the script to follow. *)
Definition summary (duid_bytes : bytes) : result unit * nat * list string :=
  let total := List.length duid_bytes in
  match discriminant duid_bytes with
  | None => (Raise (struct_error 2), total, [])
  | Some code =>
    if code =? 1 then
      if (total <? 8)%nat then (Raise (ValueError LLT_too_short), 2%nat, [type_line 1])
      else (Ok tt, total, LLT_lines duid_bytes)
    else if code =? 2 then
      if (total <? 6)%nat then (Raise (ValueError EN_too_short), 2%nat, [type_line 2])
      else (Ok tt, total, EN_lines duid_bytes)
    else if code =? 3 then
      if (total <? 4)%nat then (Raise (ValueError LL_too_short), 2%nat, [type_line 3])
      else (Ok tt, total, LL_lines duid_bytes)
    else if code =? 4 then
      if (total =? 18)%nat then (Ok tt, total, UUID_lines duid_bytes)
      else (Raise (ValueError (UUID_length 18 (Z.of_nat total))), 2%nat, [type_line 4])
    else (Ok tt, total, unknown_lines code duid_bytes)
  end.

(** ** Rules the specification states, and the ones the script follows *)

(** The normalizer fails exactly on the strings that, the colons removed,
    have a character outside [[0-9a-fA-F]] or an odd length. *)
Definition fails_iff_not_hex_pairs (duid_hex_string : string) : Prop :=
  let t := PyStr.replace_colon duid_hex_string in
  normalize duid_hex_string = None
  <-> (all_chars is_hexdigit t = false \/ Nat.odd (String.length t) = true).

(** The rule of rendering with a plain hexadecimal string off the Ethernet
    case: colon pairs for an Ethernet address of six bytes, and no colon
    otherwise. *)
Definition plain_hex_rule (duid_bytes : bytes) (rendering : string) : Prop :=
  if ethernet_mac duid_bytes
  then rendering = colon_pairs (link_layer_address duid_bytes)
  else has_colon rendering = false.

(** The rule the script follows: colon pairs in both cases, tagged [(Hex)]
    off the Ethernet case. *)
Definition tagged_pairs_rule (duid_bytes : bytes) (rendering : string) : Prop :=
  if ethernet_mac duid_bytes
  then rendering = colon_pairs (link_layer_address duid_bytes)
  else rendering = colon_pairs (link_layer_address duid_bytes) ++ " (Hex)".

(** A rule holds of the rendering of the link-layer address in every
    DUID-LLT and DUID-LL decoding that succeeds. *)
Definition lla_rendered_by (rule : bytes -> string -> Prop)
           (duid_hex_string : string) (duid_bytes : bytes) : Prop :=
  (discriminant duid_bytes = Some 1 \/ discriminant duid_bytes = Some 3) ->
  succeeds (decode duid_hex_string duid_bytes) ->
  exists rendering,
    renders_lla (decode duid_hex_string duid_bytes) rendering
    /\ rule duid_bytes rendering.

(** The characters of a string that [fromhex] would skip in front of a
    pair. *)
Definition no_space (c : ascii) : bool := negb (PyBytes.Py_ISSPACE c).

(** The low [w] hexadecimal digits of a number, most significant first. *)
Fixpoint nibbles (w : nat) (n : Z) : string :=
  match w with
  | O => EmptyString
  | S w' => nibbles w' (n / 16) ++ String (PyBytes.hexdigit (n mod 16)) EmptyString
  end.

(** The first day of the DUID epoch as a proleptic Gregorian ordinal. *)
Definition epoch_ordinal : Z := Eval cbv in Datetime.toordinal duid_epoch.

(** The year of a proleptic Gregorian ordinal. *)
Definition year_of_ordinal (n : Z) : Z :=
  let '(y, _, _) := Datetime._ord2ymd n in y.

(** Whether the years of the [count] ordinals from [n] on lie between [lo]
    and [hi]. *)
Fixpoint years_within (lo hi : Z) (count : nat) (n : Z) : bool :=
  match count with
  | O => true
  | S c =>
    (lo <=? year_of_ordinal n) && (year_of_ordinal n <=? hi)
    && years_within lo hi c (n + 1)
  end.

(** ** Vocabulary of the further properties *)

(** The total lengths the [try] statement lets through, by DUID type: the
    checks of lines 77, 114, 127 and 147. *)
Definition accepted (duid_bytes : bytes) : bool :=
  match discriminant duid_bytes with
  | None => false
  | Some code =>
    let total := List.length duid_bytes in
    if code =? 1 then (8 <=? total)%nat
    else if code =? 2 then (6 <=? total)%nat
    else if code =? 3 then (4 <=? total)%nat
    else if code =? 4 then (total =? 18)%nat
    else true
  end.

(** The error raised for a DUID-LLT, DUID-EN or DUID-LL without the bytes of
    its fixed fields. *)
Definition too_short_error (duid_type_code : Z) : value_error :=
  if duid_type_code =? 1 then LLT_too_short
  else if duid_type_code =? 2 then EN_too_short
  else LL_too_short.

(** A hexadecimal digit or a character [fromhex] skips. *)
Definition hex_or_space (c : ascii) : bool :=
  is_hexdigit c || PyBytes.Py_ISSPACE c.

(** The number of characters of a string that satisfy a test. *)
Fixpoint count_chars (p : ascii -> bool) (s : string) : nat :=
  match s with
  | EmptyString => O
  | String c r => if p c then S (count_chars p r) else count_chars p r
  end.

(** A string without its hyphens. *)
Fixpoint remove_hyphens (s : string) : string :=
  match s with
  | EmptyString => EmptyString
  | String c r =>
    if Ascii.eqb c "-" then remove_hyphens r else String c (remove_hyphens r)
  end.

(** The date of an ordinal is a month and a day of the calendar, and has
    that ordinal. *)
Definition date_round_trips (n : Z) : bool :=
  let '(y, m, d) := Datetime._ord2ymd n in
  (Datetime._ymd2ord y m d =? n)
  && (1 <=? m) && (m <=? 12) && (1 <=? d) && (d <=? 31).

(** Whether a test holds of the [count] integers from [n] on. *)
Fixpoint all_from (p : Z -> bool) (count : nat) (n : Z) : bool :=
  match count with
  | O => true
  | S c => p n && all_from p c (n + 1)
  end.

(** * Properties *)

(** ** The library functions on samples *)

Example normalize_colons :
  normalize "00:01:ab:CD" = Some [x00; x01; xab; xcd].
Proof. reflexivity. Qed.

Example normalize_space :
  normalize "00 01" = Some [x00; x01].
Proof. reflexivity. Qed.

Example normalize_split_pair :
  normalize "0 0" = None.
Proof. reflexivity. Qed.

Example hex_sample :
  PyBytes.hex [x00; x1f; xab] = "001fab".
Proof. reflexivity. Qed.

Example join_pairs_sample :
  PyStr.join_pairs ":" "001fab" = "00:1f:ab".
Proof. reflexivity. Qed.

(** ** Bytes, digits and strings *)

Lemma Zb_range (b : byte) : 0 <= Zb b < 256.
Proof.
  unfold Zb. pose proof (Byte.to_N_bounded b). lia.
Qed.

Lemma Zb_byte_of_Z (z : Z) : 0 <= z < 256 -> Zb (byte_of_Z z) = z.
Proof.
  intros Hz. unfold byte_of_Z, Zb.
  destruct (Byte.of_N (Z.to_N z)) as [b|] eqn:E.
  - apply Byte.to_of_N in E. rewrite E. lia.
  - apply Byte.of_N_None_iff in E. lia.
Qed.

Lemma byte_of_Z_Zb (b : byte) : byte_of_Z (Zb b) = b.
Proof.
  unfold byte_of_Z, Zb. rewrite N2Z.id, Byte.of_to_N. reflexivity.
Qed.

Lemma shiftr4 (z : Z) : Z.shiftr z 4 = z / 16.
Proof. rewrite Z.shiftr_div_pow2 by lia. reflexivity. Qed.

Lemma shiftl4 (z : Z) : Z.shiftl z 4 = z * 16.
Proof. rewrite Z.shiftl_mul_pow2 by lia. reflexivity. Qed.

Lemma land15 (z : Z) : Z.land z 15 = z mod 16.
Proof. change 15 with (Z.ones 4). rewrite Z.land_ones by lia. reflexivity. Qed.

Lemma hex_byte_nibbles (t b : Z) :
  0 <= t < 16 -> 0 <= b < 16 ->
  PyBytes.hex_byte (byte_of_Z (Z.shiftl t 4 + b))
  = String (PyBytes.hexdigit t) (String (PyBytes.hexdigit b) EmptyString).
Proof.
  intros Ht Hb. unfold PyBytes.hex_byte.
  rewrite shiftl4, Zb_byte_of_Z by lia.
  rewrite shiftr4, !land15.
  replace ((t * 16 + b) / 16) with t by (apply Z.div_unique with b; lia).
  replace ((t * 16 + b) mod 16) with b by (apply Z.mod_unique with t; lia).
  rewrite Z.mod_small by lia. reflexivity.
Qed.

Ltac each_char c := destruct c as [[] [] [] [] [] [] [] []].

Lemma is_hexdigit_value (c : ascii) :
  is_hexdigit c = (PyBytes.PyLong_DigitValue c <? 16).
Proof. each_char c; reflexivity. Qed.

Lemma DigitValue_nonneg (c : ascii) : 0 <= PyBytes.PyLong_DigitValue c.
Proof. each_char c; vm_compute; discriminate. Qed.

Lemma hexdigit_lower (c : ascii) :
  is_hexdigit c = true ->
  PyBytes.hexdigit (PyBytes.PyLong_DigitValue c) = lower_char c.
Proof. each_char c; intros H; try discriminate H; reflexivity. Qed.

Lemma hexdigit_not_space (c : ascii) :
  is_hexdigit c = true -> PyBytes.Py_ISSPACE c = false.
Proof. each_char c; intros H; try discriminate H; reflexivity. Qed.

Lemma hexdigit_not_colon (c : ascii) :
  is_hexdigit c = true -> Ascii.eqb c ":" = false.
Proof. each_char c; intros H; try discriminate H; reflexivity. Qed.

(** Induction on a string two characters at a time. *)
Lemma string_pair_ind (P : string -> Prop) :
  P EmptyString ->
  (forall c, P (String c EmptyString)) ->
  (forall c d s, P s -> P (String c (String d s))) ->
  forall s, P s.
Proof.
  intros H0 H1 H2 s.
  assert (H : P s /\ forall c, P (String c s)).
  { induction s as [|a s [IHs IHc]].
    - split; [exact H0 | exact H1].
    - split; [apply IHc | intros c; apply H2; exact IHs]. }
  exact (proj1 H).
Qed.

Lemma fromhex_pair (c d : ascii) (s : string) :
  PyBytes.Py_ISSPACE c = false ->
  PyBytes.fromhex (String c (String d s))
  = if is_hexdigit c && is_hexdigit d
    then option_map
           (cons (byte_of_Z (Z.shiftl (PyBytes.PyLong_DigitValue c) 4
                             + PyBytes.PyLong_DigitValue d)))
           (PyBytes.fromhex s)
    else None.
Proof.
  intros Hc. cbn [PyBytes.fromhex]. rewrite Hc, !is_hexdigit_value.
  destruct (Z.ltb_spec (PyBytes.PyLong_DigitValue c) 16) as [Hx|Hx];
    destruct (Z.leb_spec 16 (PyBytes.PyLong_DigitValue c)); try lia; cbn [andb];
    try reflexivity.
  destruct (Z.ltb_spec (PyBytes.PyLong_DigitValue d) 16) as [Hy|Hy];
    destruct (Z.leb_spec 16 (PyBytes.PyLong_DigitValue d)); try lia; reflexivity.
Qed.

Lemma fromhex_single (c : ascii) :
  PyBytes.Py_ISSPACE c = false -> PyBytes.fromhex (String c EmptyString) = None.
Proof.
  intros Hc. cbn [PyBytes.fromhex]. rewrite Hc.
  destruct (16 <=? PyBytes.PyLong_DigitValue c); reflexivity.
Qed.

(** [fromhex] on a string without whitespace: when it fails. *)
Lemma fromhex_fails_iff (t : string) :
  all_chars no_space t = true ->
  (PyBytes.fromhex t = None
   <-> all_chars is_hexdigit t = false \/ Nat.odd (String.length t) = true).
Proof.
  induction t as [| c | c d s IH] using string_pair_ind; intros Hs.
  - cbn. split; [discriminate | intros [H|H]; discriminate H].
  - cbn [all_chars] in Hs. apply andb_prop in Hs as [Hc _].
    apply negb_true_iff in Hc. rewrite fromhex_single by exact Hc.
    split; [right; reflexivity | reflexivity].
  - cbn [all_chars] in Hs.
    apply andb_prop in Hs as [Hc Hs]. apply andb_prop in Hs as [Hd Hs].
    apply negb_true_iff in Hc. specialize (IH Hs).
    rewrite fromhex_pair by exact Hc.
    cbn [all_chars String.length]. change (Nat.odd (S (S ?n))) with (Nat.odd n).
    destruct (is_hexdigit c); cbn [andb]; [|split; [left; reflexivity | reflexivity]].
    destruct (is_hexdigit d); cbn [andb]; [|split; [left; reflexivity | reflexivity]].
    destruct (PyBytes.fromhex s); cbn [option_map].
    + split; [discriminate|]. intros H. apply IH in H. discriminate H.
    + split; [intros _; apply IH; reflexivity | reflexivity].
Qed.

(** [fromhex] on a string without whitespace: what it returns. *)
Lemma fromhex_bytes (t : string) (bs : bytes) :
  all_chars no_space t = true ->
  PyBytes.fromhex t = Some bs ->
  String.length t = (2 * List.length bs)%nat
  /\ forall i, (i < List.length bs)%nat ->
       Zb (nth i bs x00) = 16 * digit_at t (2 * i) + digit_at t (2 * i + 1).
Proof.
  revert bs.
  induction t as [| c | c d s IH] using string_pair_ind; intros bs Hs E.
  - cbn in E. injection E as <-. split; [reflexivity | cbn; lia].
  - cbn [all_chars] in Hs. apply andb_prop in Hs as [Hc _].
    apply negb_true_iff in Hc. rewrite fromhex_single in E by exact Hc. discriminate E.
  - cbn [all_chars] in Hs.
    apply andb_prop in Hs as [Hc Hs]. apply andb_prop in Hs as [Hd Hs].
    apply negb_true_iff in Hc. rewrite fromhex_pair in E by exact Hc.
    destruct (is_hexdigit c) eqn:Xc; cbn [andb] in E; [|discriminate E].
    destruct (is_hexdigit d) eqn:Xd; cbn [andb] in E; [|discriminate E].
    destruct (PyBytes.fromhex s) as [bs'|] eqn:Es; cbn [option_map] in E; [|discriminate E].
    assert (Ebs : bs = byte_of_Z (Z.shiftl (PyBytes.PyLong_DigitValue c) 4
                                   + PyBytes.PyLong_DigitValue d) :: bs')
      by congruence.
    subst bs. clear E. destruct (IH bs' Hs eq_refl) as [IHl IHn].
    split; [cbn [String.length List.length]; lia|].
    intros [|i] Hi.
    + cbn [nth]. rewrite is_hexdigit_value in Xc, Xd.
      apply Z.ltb_lt in Xc, Xd.
      pose proof (DigitValue_nonneg c). pose proof (DigitValue_nonneg d).
      rewrite shiftl4, Zb_byte_of_Z by lia.
      unfold digit_at. cbn [get Nat.mul Nat.add]. lia.
    + cbn [nth List.length] in *. rewrite IHn by lia.
      unfold digit_at.
      replace (2 * S i)%nat with (S (S (2 * i))) by lia.
      replace (S (S (2 * i)) + 1)%nat with (S (S (2 * i + 1))) by lia.
      reflexivity.
Qed.

(** [fromhex] and [hex] on a string of hexadecimal digits. *)
Lemma hex_fromhex (t : string) :
  all_chars is_hexdigit t = true ->
  Nat.even (String.length t) = true ->
  exists bs, PyBytes.fromhex t = Some bs /\ PyBytes.hex bs = lower t.
Proof.
  induction t as [| c | c d s IH] using string_pair_ind; intros Hs He.
  - exists []. split; reflexivity.
  - discriminate He.
  - cbn [all_chars] in Hs.
    apply andb_prop in Hs as [Hc Hs]. apply andb_prop in Hs as [Hd Hs].
    destruct (IH Hs He) as [bs [E Hh]].
    rewrite fromhex_pair by (apply hexdigit_not_space; exact Hc).
    rewrite Hc, Hd, E. cbn [andb option_map].
    eexists. split; [reflexivity|].
    cbn [PyBytes.hex lower].
    pose proof (DigitValue_nonneg c). pose proof (DigitValue_nonneg d).
    pose proof Hc as Vc. pose proof Hd as Vd.
    rewrite is_hexdigit_value in Vc, Vd. apply Z.ltb_lt in Vc, Vd.
    rewrite hex_byte_nibbles by lia.
    rewrite !hexdigit_lower by assumption. rewrite Hh. reflexivity.
Qed.

(** ** Running the statements of the script *)

Lemma run_bind {A B} (m : M A) (k : A -> M B) (w : world) :
  bind m k w
  = match m w with
    | (Ok a, w') => k a w'
    | (Raise e, w') => (Raise e, w')
    end.
Proof. reflexivity. Qed.

Lemma run_read (k : nat) (buf : bytes) (pos : nat) (out : list string) :
  read (Z.of_nat k) {| data_buf := buf; data_pos := pos; stdout := out |}
  = (Ok (firstn k (skipn pos buf)),
     {| data_buf := buf; data_pos := pos + List.length (firstn k (skipn pos buf));
        stdout := out |}).
Proof.
  unfold read. cbn [data_buf data_pos stdout].
  destruct (Z.ltb_spec (Z.of_nat k) 0) as [H|H]; [lia|].
  rewrite Nat2Z.id. reflexivity.
Qed.

Lemma run_read_all (buf : bytes) (pos : nat) (out : list string) :
  read_all {| data_buf := buf; data_pos := pos; stdout := out |}
  = (Ok (skipn pos buf),
     {| data_buf := buf; data_pos := pos + List.length (skipn pos buf);
        stdout := out |}).
Proof. reflexivity. Qed.

Lemma run_print (line : string) (buf : bytes) (pos : nat) (out : list string) :
  print line {| data_buf := buf; data_pos := pos; stdout := out |}
  = (Ok tt, {| data_buf := buf; data_pos := pos; stdout := out ++ [line] |}).
Proof. reflexivity. Qed.

Lemma run_unpack_H (b0 b1 : byte) (w : world) :
  unpack_H [b0; b1] w = (Ok (PyBytes.from_bytes_big [b0; b1]), w).
Proof. reflexivity. Qed.

Lemma run_unpack_I (b0 b1 b2 b3 : byte) (w : world) :
  unpack_I [b0; b1; b2; b3] w = (Ok (PyBytes.from_bytes_big [b0; b1; b2; b3]), w).
Proof. reflexivity. Qed.

Lemma run_raise_if (c : bool) (e : exn) (w : world) :
  raise_if c e w = if c then (Raise e, w) else (Ok tt, w).
Proof. destruct c; reflexivity. Qed.

Lemma run_print_timestamp (time_val : Z) (buf : bytes) (pos : nat) (out : list string) :
  print_timestamp time_val {| data_buf := buf; data_pos := pos; stdout := out |}
  = (Ok tt, {| data_buf := buf; data_pos := pos;
               stdout := out ++ [timestamp_line time_val] |}).
Proof.
  unfold print_timestamp, timestamp_line.
  destruct (actual_datetime time_val); reflexivity.
Qed.

Lemma run_print_hw_type (hw : Z) (buf : bytes) (pos : nat) (out : list string) :
  print_hw_type hw {| data_buf := buf; data_pos := pos; stdout := out |}
  = (Ok tt, {| data_buf := buf; data_pos := pos;
               stdout := out ++ [hw_type_line hw] |}).
Proof. reflexivity. Qed.

Lemma run_print_lla (hw len : Z) (lla : bytes) (buf : bytes) (pos : nat) (out : list string) :
  print_lla hw len lla {| data_buf := buf; data_pos := pos; stdout := out |}
  = (Ok tt, {| data_buf := buf; data_pos := pos;
               stdout := out ++ ["Link-layer Address: " ++ lla_rendering hw len lla] |}).
Proof.
  unfold print_lla, lla_rendering.
  destruct ((hw =? 1) && (len =? 6)); reflexivity.
Qed.

Ltac step :=
  rewrite run_bind;
  first [ rewrite run_read | rewrite run_read_all | rewrite run_print
        | rewrite run_unpack_H | rewrite run_unpack_I
        | rewrite run_print_timestamp | rewrite run_print_hw_type ];
  cbn [firstn skipn List.length Nat.add].

Ltac literal_sizes :=
  change (read 2) with (read (Z.of_nat 2));
  change (read 4) with (read (Z.of_nat 4));
  change (read 16) with (read (Z.of_nat 16)).

Ltac pass_check :=
  rewrite run_bind, run_raise_if;
  match goal with
  | |- context [ ?a <? ?b ] => destruct (Z.ltb_spec a b); [lia|]
  end.

Ltac fail_check :=
  rewrite run_bind, run_raise_if;
  match goal with
  | |- context [ ?a <? ?b ] => destruct (Z.ltb_spec a b); [|lia]
  end.

Ltac lines := rewrite <- ?app_assoc; reflexivity.

(** *** The type is read from the first two bytes *)

Lemma decode_body_no_type (total : Z) (buf : bytes) (out : list string) :
  (List.length buf < 2)%nat ->
  decode_body total {| data_buf := buf; data_pos := 0; stdout := out |}
  = (Raise (struct_error 2),
     {| data_buf := buf; data_pos := List.length buf; stdout := out |}).
Proof.
  intros H. unfold decode_body. literal_sizes.
  destruct buf as [|b0 [|b1 rest]]; [| |cbn [List.length] in H; lia];
    rewrite run_bind, run_read; reflexivity.
Qed.

(** *** DUID-LLT *)

Lemma decode_body_LLT (out : list string) (b0 b1 h0 h1 t0 t1 t2 t3 : byte) (addr : bytes) :
  PyBytes.from_bytes_big [b0; b1] = 1 ->
  let bs := b0 :: b1 :: h0 :: h1 :: t0 :: t1 :: t2 :: t3 :: addr in
  decode_body (Z.of_nat (List.length bs))
              {| data_buf := bs; data_pos := 0; stdout := out |}
  = (Ok tt,
     {| data_buf := bs; data_pos := List.length bs;
        stdout :=
          out ++ [ type_line 1;
                   hw_type_line (hardware_type bs);
                   "Seconds since midnight (UTC), January 1, 2000: "
                   ++ PyStr.str (time_offset bs);
                   timestamp_line (time_offset bs);
                   "Link-layer Address: "
                   ++ lla_rendering (hardware_type bs) (Z.of_nat (List.length addr)) addr ] |}).
Proof.
  intros Ht bs. subst bs.
  set (total := Z.of_nat _).
  assert (Htot : total = Z.of_nat (List.length addr) + 8)
    by (subst total; cbn [List.length]; lia).
  clearbody total.
  unfold decode_body. literal_sizes.
  step. step. step. rewrite Ht. cbn [Z.eqb Pos.eqb].
  pass_check.
  do 7 step.
  pass_check.
  replace (total - 8) with (Z.of_nat (List.length addr)) by lia.
  step. rewrite run_print_lla, firstn_all. cbn [List.length].
  unfold hardware_type, time_offset. cbn [firstn skipn]. lines.
Qed.

Lemma decode_body_LLT_short (out : list string) (b0 b1 : byte) (rest : bytes) :
  PyBytes.from_bytes_big [b0; b1] = 1 ->
  (List.length rest < 6)%nat ->
  let bs := b0 :: b1 :: rest in
  decode_body (Z.of_nat (List.length bs))
              {| data_buf := bs; data_pos := 0; stdout := out |}
  = (Raise (ValueError LLT_too_short),
     {| data_buf := bs; data_pos := 2; stdout := out ++ [type_line 1] |}).
Proof.
  intros Ht Hl bs. subst bs.
  set (total := Z.of_nat _).
  assert (Htot : total = Z.of_nat (List.length rest) + 2)
    by (subst total; cbn [List.length]; lia).
  clearbody total.
  unfold decode_body. literal_sizes.
  step. step. step. rewrite Ht. cbn [Z.eqb Pos.eqb].
  fail_check. reflexivity.
Qed.

(** *** DUID-EN *)

Lemma decode_body_EN (out : list string) (b0 b1 e0 e1 e2 e3 : byte) (ident : bytes) :
  PyBytes.from_bytes_big [b0; b1] = 2 ->
  let bs := b0 :: b1 :: e0 :: e1 :: e2 :: e3 :: ident in
  decode_body (Z.of_nat (List.length bs))
              {| data_buf := bs; data_pos := 0; stdout := out |}
  = (Ok tt,
     {| data_buf := bs; data_pos := List.length bs;
        stdout :=
          out ++ [ type_line 2;
                   "Enterprise Number: "
                   ++ PyStr.str (PyBytes.from_bytes_big [e0; e1; e2; e3]);
                   "Identifier: 0x" ++ PyBytes.hex ident ] |}).
Proof.
  intros Ht bs. subst bs.
  set (total := Z.of_nat _).
  assert (Htot : total = Z.of_nat (List.length ident) + 6)
    by (subst total; cbn [List.length]; lia).
  clearbody total.
  unfold decode_body. literal_sizes.
  step. step. step. rewrite Ht. cbn [Z.eqb Pos.eqb].
  pass_check.
  do 3 step.
  pass_check.
  replace (total - 6) with (Z.of_nat (List.length ident)) by lia.
  step. rewrite run_print, firstn_all. lines.
Qed.

Lemma decode_body_EN_short (out : list string) (b0 b1 : byte) (rest : bytes) :
  PyBytes.from_bytes_big [b0; b1] = 2 ->
  (List.length rest < 4)%nat ->
  let bs := b0 :: b1 :: rest in
  decode_body (Z.of_nat (List.length bs))
              {| data_buf := bs; data_pos := 0; stdout := out |}
  = (Raise (ValueError EN_too_short),
     {| data_buf := bs; data_pos := 2; stdout := out ++ [type_line 2] |}).
Proof.
  intros Ht Hl bs. subst bs.
  set (total := Z.of_nat _).
  assert (Htot : total = Z.of_nat (List.length rest) + 2)
    by (subst total; cbn [List.length]; lia).
  clearbody total.
  unfold decode_body. literal_sizes.
  step. step. step. rewrite Ht. cbn [Z.eqb Pos.eqb].
  fail_check. reflexivity.
Qed.

(** *** DUID-LL *)

Lemma decode_body_LL (out : list string) (b0 b1 h0 h1 : byte) (addr : bytes) :
  PyBytes.from_bytes_big [b0; b1] = 3 ->
  let bs := b0 :: b1 :: h0 :: h1 :: addr in
  decode_body (Z.of_nat (List.length bs))
              {| data_buf := bs; data_pos := 0; stdout := out |}
  = (Ok tt,
     {| data_buf := bs; data_pos := List.length bs;
        stdout :=
          out ++ [ type_line 3;
                   hw_type_line (hardware_type bs);
                   "Link-layer Address: "
                   ++ lla_rendering (hardware_type bs) (Z.of_nat (List.length addr)) addr ] |}).
Proof.
  intros Ht bs. subst bs.
  set (total := Z.of_nat _).
  assert (Htot : total = Z.of_nat (List.length addr) + 4)
    by (subst total; cbn [List.length]; lia).
  clearbody total.
  unfold decode_body. literal_sizes.
  step. step. step. rewrite Ht. cbn [Z.eqb Pos.eqb].
  pass_check.
  do 3 step.
  pass_check.
  replace (total - 4) with (Z.of_nat (List.length addr)) by lia.
  step. rewrite run_print_lla, firstn_all. cbn [List.length].
  unfold hardware_type. cbn [firstn skipn]. lines.
Qed.

Lemma decode_body_LL_short (out : list string) (b0 b1 : byte) (rest : bytes) :
  PyBytes.from_bytes_big [b0; b1] = 3 ->
  (List.length rest < 2)%nat ->
  let bs := b0 :: b1 :: rest in
  decode_body (Z.of_nat (List.length bs))
              {| data_buf := bs; data_pos := 0; stdout := out |}
  = (Raise (ValueError LL_too_short),
     {| data_buf := bs; data_pos := 2; stdout := out ++ [type_line 3] |}).
Proof.
  intros Ht Hl bs. subst bs.
  set (total := Z.of_nat _).
  assert (Htot : total = Z.of_nat (List.length rest) + 2)
    by (subst total; cbn [List.length]; lia).
  clearbody total.
  unfold decode_body. literal_sizes.
  step. step. step. rewrite Ht. cbn [Z.eqb Pos.eqb].
  fail_check. reflexivity.
Qed.

(** *** DUID-UUID *)

Lemma decode_body_UUID (out : list string) (b0 b1 : byte) (payload : bytes) :
  PyBytes.from_bytes_big [b0; b1] = 4 ->
  List.length payload = 16%nat ->
  let bs := b0 :: b1 :: payload in
  decode_body (Z.of_nat (List.length bs))
              {| data_buf := bs; data_pos := 0; stdout := out |}
  = (Ok tt,
     {| data_buf := bs; data_pos := List.length bs;
        stdout :=
          out ++ [ type_line 4;
                   "UUID: " ++ Uuid.str (PyBytes.from_bytes_big payload) ] |}).
Proof.
  intros Ht Hl bs. subst bs.
  set (total := Z.of_nat _).
  assert (Htot : total = 18) by (subst total; cbn [List.length]; lia).
  clearbody total. subst total.
  unfold decode_body.
  change (read 2) with (read (Z.of_nat 2)).
  replace (read 16) with (read (Z.of_nat (List.length payload)))
    by (rewrite Hl; reflexivity).
  step. step. step. rewrite Ht. cbn [Z.eqb Pos.eqb negb].
  rewrite run_bind, run_raise_if.
  step. rewrite firstn_all.
  unfold Uuid.UUID. rewrite Hl. cbn [Nat.eqb].
  rewrite run_print. lines.
Qed.

Lemma decode_body_UUID_length (out : list string) (b0 b1 : byte) (rest : bytes) :
  PyBytes.from_bytes_big [b0; b1] = 4 ->
  List.length rest <> 16%nat ->
  let bs := b0 :: b1 :: rest in
  decode_body (Z.of_nat (List.length bs))
              {| data_buf := bs; data_pos := 0; stdout := out |}
  = (Raise (ValueError (UUID_length 18 (Z.of_nat (List.length bs)))),
     {| data_buf := bs; data_pos := 2; stdout := out ++ [type_line 4] |}).
Proof.
  intros Ht Hl bs. subst bs.
  set (total := Z.of_nat _).
  assert (Htot : total <> 18) by (subst total; cbn [List.length]; lia).
  clearbody total.
  unfold decode_body. literal_sizes.
  step. step. step. rewrite Ht. cbn [Z.eqb Pos.eqb].
  rewrite run_bind, run_raise_if.
  destruct (Z.eqb_spec total 18) as [E|_]; [contradiction|]. reflexivity.
Qed.

(** *** Any other type *)

Lemma decode_body_unknown (out : list string) (b0 b1 : byte) (rest : bytes) :
  let code := PyBytes.from_bytes_big [b0; b1] in
  code <> 1 -> code <> 2 -> code <> 3 -> code <> 4 ->
  let bs := b0 :: b1 :: rest in
  decode_body (Z.of_nat (List.length bs))
              {| data_buf := bs; data_pos := 0; stdout := out |}
  = (Ok tt,
     {| data_buf := bs; data_pos := List.length bs;
        stdout :=
          out ++ [ type_line code; "Unknown DUID Type. Unable to decode further." ]
          ++ match rest with
             | [] => []
             | _ :: _ => [ "Remaining undecoded data: 0x" ++ PyBytes.hex rest ]
             end |}).
Proof.
  intros code H1 H2 H3 H4 bs. subst bs.
  unfold decode_body. literal_sizes.
  step. step. step. fold code.
  destruct (Z.eqb_spec code 1) as [E|_]; [contradiction|].
  destruct (Z.eqb_spec code 2) as [E|_]; [contradiction|].
  destruct (Z.eqb_spec code 3) as [E|_]; [contradiction|].
  destruct (Z.eqb_spec code 4) as [E|_]; [contradiction|].
  step. step.
  destruct rest as [|r0 rest].
  - cbn [List.length Nat.add]. unfold ret. rewrite <- app_assoc, app_nil_r. reflexivity.
  - rewrite run_print. cbn [List.length Nat.add]. rewrite <- !app_assoc. reflexivity.
Qed.

(** *** The summary of the [try] statement *)

Ltac need_cons l :=
  let b := fresh "b" in
  destruct l as [|b l]; [cbn [List.length] in *; lia|].

Lemma discriminant_cons (b0 b1 : byte) (rest : bytes) :
  discriminant (b0 :: b1 :: rest) = Some (PyBytes.from_bytes_big [b0; b1]).
Proof. reflexivity. Qed.

Lemma discriminant_short (bs : bytes) :
  (List.length bs < 2)%nat -> discriminant bs = None.
Proof.
  destruct bs as [|b0 [|b1 rest]]; cbn [List.length]; intros H;
    [reflexivity | reflexivity | lia].
Qed.

Lemma discriminant_length (bs : bytes) (code : Z) :
  discriminant bs = Some code -> (2 <= List.length bs)%nat.
Proof.
  intros H. destruct (Nat.lt_ge_cases (List.length bs) 2) as [L|L]; [|exact L].
  rewrite discriminant_short in H by exact L. discriminate H.
Qed.

Theorem try_decode_summary (duid_hex_string : string) (duid_bytes : bytes) :
  try_decode duid_hex_string duid_bytes
  = (fst (fst (summary duid_bytes)),
     {| data_buf := duid_bytes;
        data_pos := snd (fst (summary duid_bytes));
        stdout := header_lines duid_hex_string duid_bytes ++ snd (summary duid_bytes) |}).
Proof.
  unfold try_decode, summary.
  change (start duid_hex_string duid_bytes)
    with {| data_buf := duid_bytes; data_pos := 0;
            stdout := header_lines duid_hex_string duid_bytes |}.
  generalize (header_lines duid_hex_string duid_bytes) as out. intros out.
  destruct (Nat.lt_ge_cases (List.length duid_bytes) 2) as [L|L].
  { rewrite discriminant_short by exact L.
    rewrite decode_body_no_type by exact L.
    cbn [fst snd]. rewrite app_nil_r. reflexivity. }
  destruct duid_bytes as [|b0 [|b1 rest]]; try (cbn [List.length] in L; lia).
  rewrite discriminant_cons.
  destruct (Z.eqb_spec (PyBytes.from_bytes_big [b0; b1]) 1) as [E1|N1].
  { destruct (Nat.ltb_spec (List.length (b0 :: b1 :: rest)) 8) as [S|S].
    - rewrite (decode_body_LLT_short out b0 b1 rest E1)
        by (cbn [List.length] in S; lia).
      reflexivity.
    - do 6 need_cons rest.
      rewrite (decode_body_LLT out b0 b1 b b2 b3 b4 b5 b6 rest E1). reflexivity. }
  destruct (Z.eqb_spec (PyBytes.from_bytes_big [b0; b1]) 2) as [E2|N2].
  { destruct (Nat.ltb_spec (List.length (b0 :: b1 :: rest)) 6) as [S|S].
    - rewrite (decode_body_EN_short out b0 b1 rest E2)
        by (cbn [List.length] in S; lia).
      reflexivity.
    - do 4 need_cons rest.
      rewrite (decode_body_EN out b0 b1 b b2 b3 b4 rest E2). reflexivity. }
  destruct (Z.eqb_spec (PyBytes.from_bytes_big [b0; b1]) 3) as [E3|N3].
  { destruct (Nat.ltb_spec (List.length (b0 :: b1 :: rest)) 4) as [S|S].
    - rewrite (decode_body_LL_short out b0 b1 rest E3)
        by (cbn [List.length] in S; lia).
      reflexivity.
    - do 2 need_cons rest.
      rewrite (decode_body_LL out b0 b1 b b2 rest E3). reflexivity. }
  destruct (Z.eqb_spec (PyBytes.from_bytes_big [b0; b1]) 4) as [E4|N4].
  { destruct (Nat.eqb_spec (List.length (b0 :: b1 :: rest)) 18) as [S|S].
    - rewrite (decode_body_UUID out b0 b1 rest E4)
        by (cbn [List.length] in S; lia).
      reflexivity.
    - rewrite (decode_body_UUID_length out b0 b1 rest E4)
        by (cbn [List.length] in S; lia).
      reflexivity. }
  rewrite (decode_body_unknown out b0 b1 rest N1 N2 N3 N4). reflexivity.
Qed.

Lemma summary_Ok_pos (duid_bytes : bytes) (u : unit) :
  fst (fst (summary duid_bytes)) = Ok u ->
  snd (fst (summary duid_bytes)) = List.length duid_bytes.
Proof.
  unfold summary.
  destruct (discriminant duid_bytes) as [code|]; [|discriminate].
  repeat match goal with
         | |- context [if ?c then _ else _] => destruct c
         end; cbn [fst snd]; intros H; try discriminate H; reflexivity.
Qed.

Lemma remaining_check_end (buf : bytes) (out : list string) :
  remaining_check {| data_buf := buf; data_pos := List.length buf; stdout := out |} = [].
Proof.
  unfold remaining_check. rewrite run_read_all. cbn [fst].
  rewrite skipn_all. reflexivity.
Qed.

(** The script from the bytes on, by the summary of its [try] statement. *)
Lemma decode_by_summary (duid_hex_string : string) (duid_bytes : bytes) :
  (2 <= List.length duid_bytes)%nat ->
  decode duid_hex_string duid_bytes
  = match fst (fst (summary duid_bytes)) with
    | Ok _ =>
      {| output := header_lines duid_hex_string duid_bytes ++ snd (summary duid_bytes);
         status := 0 |}
    | Raise e =>
      {| output := (header_lines duid_hex_string duid_bytes ++ snd (summary duid_bytes))
                   ++ handler e;
         status := 1 |}
    end.
Proof.
  intros L. unfold decode.
  destruct (Z.ltb_spec (Z.of_nat (List.length duid_bytes)) 2) as [H|_]; [lia|].
  rewrite try_decode_summary.
  pose proof (summary_Ok_pos duid_bytes) as P.
  destruct (summary duid_bytes) as [[r p] l]. cbn [fst snd] in *.
  destruct r as [u|e]; [|reflexivity].
  rewrite (P u eq_refl), remaining_check_end, app_nil_r. reflexivity.
Qed.

Lemma decode_too_short (duid_hex_string : string) (duid_bytes : bytes) :
  (List.length duid_bytes < 2)%nat ->
  decode duid_hex_string duid_bytes
  = {| output := [too_short_line (List.length duid_bytes)]; status := 1 |}.
Proof.
  intros L. unfold decode.
  destruct (Z.ltb_spec (Z.of_nat (List.length duid_bytes)) 2) as [_|H]; [|lia].
  reflexivity.
Qed.

(** ** The properties of the specification *)

(** C4.  A byte sequence of length 0 or 1 is refused with the too-short
    error before the [try] statement is entered: the run consists of the
    line of that error alone and ends with status 1; neither the header
    nor the line of a DUID type is printed and no handler of the [try]
    statement runs.  The same holds of the whole script when the
    normalizer returns such bytes. *)
Theorem too_short_before_dispatch (duid_hex_string : string) (duid_bytes : bytes) :
  (List.length duid_bytes < 2)%nat ->
  decode duid_hex_string duid_bytes
  = {| output := [too_short_line (List.length duid_bytes)]; status := 1 |}
  /\ forall argv0,
       normalize duid_hex_string = Some duid_bytes ->
       main [argv0; duid_hex_string]
       = {| output := [too_short_line (List.length duid_bytes)]; status := 1 |}.
Proof.
  intros L. split; [apply decode_too_short; exact L|].
  intros argv0 E. unfold main. rewrite E. apply decode_too_short. exact L.
Qed.

Lemma too_short_before_dispatch_witness :
  (List.length [x2a] < 2)%nat
  /\ normalize "2a" = Some [x2a]
  /\ decode "2a" [x2a] = {| output := [too_short_line 1]; status := 1 |}
  /\ main ["dec.py"; "2a"] = {| output := [too_short_line 1]; status := 1 |}.
Proof.
  assert (L : (List.length [x2a] < 2)%nat) by (cbn; lia).
  assert (E : normalize "2a" = Some [x2a]) by reflexivity.
  exact (conj L (conj E (conj (proj1 (too_short_before_dispatch "2a" [x2a] L))
                              (proj2 (too_short_before_dispatch "2a" [x2a] L)
                                     "dec.py" E)))).
Defined.

Lemma fromhex_hex_byte (b : byte) (s : string) :
  PyBytes.fromhex (PyBytes.hex_byte b ++ s) = option_map (cons b) (PyBytes.fromhex s).
Proof. destruct b; reflexivity. Qed.

(** [bytes.fromhex] undoes [bytes.hex]. *)
Lemma fromhex_hex (bs : bytes) : PyBytes.fromhex (PyBytes.hex bs) = Some bs.
Proof.
  induction bs as [|b r IH]; [reflexivity|].
  cbn [PyBytes.hex]. rewrite fromhex_hex_byte, IH. reflexivity.
Qed.

(** How the [try] statement can end in an error. *)
Lemma summary_raises (duid_bytes : bytes) (e : exn) :
  fst (fst (summary duid_bytes)) = Raise e ->
  e = struct_error 2
  \/ e = ValueError LLT_too_short
  \/ e = ValueError EN_too_short
  \/ e = ValueError LL_too_short
  \/ e = ValueError (UUID_length 18 (Z.of_nat (List.length duid_bytes))).
Proof.
  unfold summary.
  destruct (discriminant duid_bytes) as [code|];
    repeat match goal with
           | |- context [if ?c then _ else _] => destruct c
           end; cbn [fst snd]; intros H; try discriminate H;
    injection H as <-; tauto.
Qed.

(** C5.  The DUID-LLT [0001 0001 00000000 001122334455] of 14 bytes is
    decoded with status 0 as type 1, hardware type 1, time 0, the timestamp
    of 2000-01-01 at 00:00:00 UTC and the link-layer address
    [00:11:22:33:44:55]; the string of the example, blanks included, is
    normalized to these bytes. *)
Theorem llt_example (duid_hex_string : string) :
  let duid_bytes :=
    [x00; x01; x00; x01; x00; x00; x00; x00; x00; x11; x22; x33; x44; x55] in
  decode duid_hex_string duid_bytes
  = {| output :=
         [ "Input DUID Hex: " ++ duid_hex_string;
           "Total DUID Length: 14 bytes";
           "DUID Type: 1 [DUID-LLT - Link-layer address plus time]";
           "Hardware Type: 1 [Ethernet]";
           "Seconds since midnight (UTC), January 1, 2000: 0";
           "Calculated Timestamp (UTC): 2000-01-01T00:00:00+00:00";
           "Link-layer Address: 00:11:22:33:44:55" ];
       status := 0 |}
  /\ discriminant duid_bytes = Some 1
  /\ hardware_type duid_bytes = 1
  /\ time_offset duid_bytes = 0
  /\ actual_datetime (time_offset duid_bytes) = Some duid_epoch
  /\ renders_lla (decode duid_hex_string duid_bytes) "00:11:22:33:44:55"
  /\ normalize "0001 0001 00000000 001122334455" = Some duid_bytes.
Proof.
  intros duid_bytes.
  assert (D : decode duid_hex_string duid_bytes
              = {| output :=
                     [ "Input DUID Hex: " ++ duid_hex_string;
                       "Total DUID Length: 14 bytes";
                       "DUID Type: 1 [DUID-LLT - Link-layer address plus time]";
                       "Hardware Type: 1 [Ethernet]";
                       "Seconds since midnight (UTC), January 1, 2000: 0";
                       "Calculated Timestamp (UTC): 2000-01-01T00:00:00+00:00";
                       "Link-layer Address: 00:11:22:33:44:55" ];
                   status := 0 |}).
  { rewrite decode_by_summary by (cbn; lia). reflexivity. }
  split; [exact D|].
  unfold renders_lla. rewrite D.
  repeat split; reflexivity.
Qed.

(** C6.  A byte sequence of two bytes or more whose discriminant is none of
    1, 2, 3 and 4 is always decoded with status 0.  After the header the
    run prints the line of the type and the line of the unknown type, then,
    when bytes follow the discriminant, one line with all of them in
    hexadecimal, from which [bytes.fromhex] gives them back unchanged; no
    line of a fixed field is printed. *)
Theorem unknown_type_succeeds (duid_hex_string : string) (duid_bytes : bytes) (code : Z) :
  (2 <= List.length duid_bytes)%nat ->
  discriminant duid_bytes = Some code ->
  code <> 1 -> code <> 2 -> code <> 3 -> code <> 4 ->
  succeeds (decode duid_hex_string duid_bytes)
  /\ output (decode duid_hex_string duid_bytes)
     = (header_lines duid_hex_string duid_bytes
        ++ [ type_line code; "Unknown DUID Type. Unable to decode further." ]
        ++ match skipn 2 duid_bytes with
           | [] => []
           | _ :: _ =>
             [ ("Remaining undecoded data: 0x" ++ PyBytes.hex (skipn 2 duid_bytes))%string ]
           end)%list
  /\ PyBytes.fromhex (PyBytes.hex (skipn 2 duid_bytes)) = Some (skipn 2 duid_bytes).
Proof.
  intros L D N1 N2 N3 N4.
  rewrite decode_by_summary by exact L.
  unfold summary. rewrite D.
  destruct (Z.eqb_spec code 1) as [E|_]; [contradiction|].
  destruct (Z.eqb_spec code 2) as [E|_]; [contradiction|].
  destruct (Z.eqb_spec code 3) as [E|_]; [contradiction|].
  destruct (Z.eqb_spec code 4) as [E|_]; [contradiction|].
  cbn [fst snd]. repeat split. apply fromhex_hex.
Qed.

Lemma unknown_type_succeeds_witness :
  (2 <= List.length [x27; x0f; x01; x02])%nat
  /\ discriminant [x27; x0f; x01; x02] = Some 9999
  /\ succeeds (decode "27:0f:01:02" [x27; x0f; x01; x02])
  /\ output (decode "27:0f:01:02" [x27; x0f; x01; x02])
     = [ "Input DUID Hex: 27:0f:01:02"; "Total DUID Length: 4 bytes";
         "DUID Type: 9999 [Unknown]";
         "Unknown DUID Type. Unable to decode further.";
         "Remaining undecoded data: 0x0102" ].
Proof.
  assert (L : (2 <= List.length [x27; x0f; x01; x02])%nat) by (cbn; lia).
  assert (D : discriminant [x27; x0f; x01; x02] = Some 9999) by reflexivity.
  destruct (unknown_type_succeeds "27:0f:01:02" [x27; x0f; x01; x02] 9999 L D)
    as [S [O _]]; try (intros H; discriminate H).
  split; [exact L|]. split; [exact D|]. split; [exact S|]. rewrite O. reflexivity.
Defined.

(** C7.  For a string that, its colons removed, consists of hexadecimal
    digits, an even number of them and at least four, the normalizer
    returns bytes whose [hex()] is the string without its colons, in lower
    case. *)
Theorem normalizer_round_trip (duid_hex_string : string) :
  let t := PyStr.replace_colon duid_hex_string in
  all_chars is_hexdigit t = true ->
  Nat.even (String.length t) = true ->
  (4 <= String.length t)%nat ->
  exists duid_bytes,
    normalize duid_hex_string = Some duid_bytes
    /\ PyBytes.hex duid_bytes = lower t.
Proof.
  intros t Hh He _. unfold normalize. fold t.
  apply hex_fromhex; assumption.
Qed.

Lemma normalizer_round_trip_witness :
  all_chars is_hexdigit (PyStr.replace_colon "00:01:AB:cd") = true
  /\ Nat.even (String.length (PyStr.replace_colon "00:01:AB:cd")) = true
  /\ (4 <= String.length (PyStr.replace_colon "00:01:AB:cd"))%nat
  /\ exists duid_bytes,
      normalize "00:01:AB:cd" = Some duid_bytes
      /\ PyBytes.hex duid_bytes = lower (PyStr.replace_colon "00:01:AB:cd").
Proof.
  assert (Hh : all_chars is_hexdigit (PyStr.replace_colon "00:01:AB:cd") = true)
    by reflexivity.
  assert (He : Nat.even (String.length (PyStr.replace_colon "00:01:AB:cd")) = true)
    by reflexivity.
  assert (Hl : (4 <= String.length (PyStr.replace_colon "00:01:AB:cd"))%nat)
    by (cbn; lia).
  exact (conj Hh (conj He (conj Hl (normalizer_round_trip "00:01:AB:cd" Hh He Hl)))).
Defined.

Example round_trip_sample :
  normalize "00:01:AB:cd" = Some [x00; x01; xab; xcd]
  /\ PyBytes.hex [x00; x01; xab; xcd] = "0001abcd".
Proof. split; reflexivity. Qed.

(** C8.  When the decoding succeeds, whatever the DUID type, the [try]
    statement has read the buffer to its end: the read position is the
    total length, the [data.read()] of the final check returns no byte, the
    check prints nothing, and the run is the lines of the [try] statement
    alone. *)
Theorem no_trailing_data (duid_hex_string : string) (duid_bytes : bytes) :
  succeeds (decode duid_hex_string duid_bytes) ->
  exists w,
    try_decode duid_hex_string duid_bytes = (Ok tt, w)
    /\ data_buf w = duid_bytes
    /\ data_pos w = List.length duid_bytes
    /\ fst (read_all w) = Ok []
    /\ remaining_check w = []
    /\ output (decode duid_hex_string duid_bytes) = stdout w.
Proof.
  unfold succeeds. intros S.
  destruct (Nat.lt_ge_cases (List.length duid_bytes) 2) as [L|L].
  { rewrite decode_too_short in S by exact L. discriminate S. }
  rewrite decode_by_summary in S |- * by exact L.
  rewrite try_decode_summary.
  pose proof (summary_Ok_pos duid_bytes) as P.
  destruct (summary duid_bytes) as [[r p] l]. cbn [fst snd] in *.
  destruct r as [[]|e]; [|discriminate S].
  rewrite (P tt eq_refl).
  eexists. split; [reflexivity|]. cbn [data_buf data_pos stdout output].
  repeat split.
  - rewrite run_read_all. cbn [fst]. rewrite skipn_all. reflexivity.
  - apply remaining_check_end.
Qed.

Lemma no_trailing_data_witness :
  succeeds (decode "0002000000090102" [x00; x02; x00; x00; x00; x09; x01; x02])
  /\ exists w,
      try_decode "0002000000090102" [x00; x02; x00; x00; x00; x09; x01; x02] = (Ok tt, w)
      /\ data_buf w = [x00; x02; x00; x00; x00; x09; x01; x02]
      /\ data_pos w = 8%nat
      /\ fst (read_all w) = Ok []
      /\ remaining_check w = []
      /\ output (decode "0002000000090102" [x00; x02; x00; x00; x00; x09; x01; x02])
         = stdout w.
Proof.
  assert (S : succeeds (decode "0002000000090102"
                               [x00; x02; x00; x00; x00; x09; x01; x02]))
    by reflexivity.
  exact (conj S (no_trailing_data _ _ S)).
Defined.

(** C9.  The [try] statement never raises one of the three negative-length
    errors; and for a DUID-LLT, DUID-EN or DUID-LL that has the bytes of its
    fixed fields (8, 6 and 4) the length of the trailing field, the total
    length less that of the fixed fields, is not negative and the [try]
    statement ends without an error. *)
Theorem negative_length_unreachable (duid_hex_string : string) (duid_bytes : bytes) :
  (forall e w,
      try_decode duid_hex_string duid_bytes = (Raise e, w) ->
      e <> ValueError LLT_negative_length
      /\ e <> ValueError EN_negative_length
      /\ e <> ValueError LL_negative_length)
  /\ (forall code,
         discriminant duid_bytes = Some code ->
         code = 1 \/ code = 2 \/ code = 3 ->
         (fixed_header_length code <= List.length duid_bytes)%nat ->
         0 <= Z.of_nat (List.length duid_bytes) - Z.of_nat (fixed_header_length code)
         /\ fst (try_decode duid_hex_string duid_bytes) = Ok tt).
Proof.
  split.
  - intros e w E. rewrite try_decode_summary in E.
    assert (R : fst (fst (summary duid_bytes)) = Raise e) by congruence.
    apply summary_raises in R.
    repeat split; intros ->;
      repeat (destruct R as [R|R]; try discriminate R); discriminate R.
  - intros code D C L. split; [lia|].
    rewrite try_decode_summary. cbn [fst]. unfold summary. rewrite D.
    destruct C as [-> | [-> | ->]]; cbn [Z.eqb Pos.eqb]; cbn in L;
      match goal with
      | |- context [(?a <? ?b)%nat] => destruct (Nat.ltb_spec a b); [lia|]
      end; reflexivity.
Qed.

Lemma negative_length_unreachable_witness :
  discriminant [x00; x03; x00; x01] = Some 3
  /\ (fixed_header_length 3 <= List.length [x00; x03; x00; x01])%nat
  /\ 0 <= Z.of_nat (List.length [x00; x03; x00; x01]) - Z.of_nat (fixed_header_length 3)
  /\ fst (try_decode "00030001" [x00; x03; x00; x01]) = Ok tt.
Proof.
  assert (D : discriminant [x00; x03; x00; x01] = Some 3) by reflexivity.
  assert (L : (fixed_header_length 3 <= List.length [x00; x03; x00; x01])%nat)
    by (cbn; lia).
  exact (conj D (conj L
           (proj2 (negative_length_unreachable "00030001" [x00; x03; x00; x01])
                  3 D (or_intror (or_intror eq_refl)) L))).
Defined.

(** ** Strings of hexadecimal digits *)

Lemma append_assoc (a b c : string) : ((a ++ b) ++ c = a ++ (b ++ c))%string.
Proof. induction a as [|x a IH]; cbn; [reflexivity | rewrite IH; reflexivity]. Qed.

Lemma append_length (a b : string) :
  String.length (a ++ b) = (String.length a + String.length b)%nat.
Proof. induction a as [|x a IH]; cbn; [reflexivity | rewrite IH; reflexivity]. Qed.

Lemma append_empty_r (a : string) : (a ++ "")%string = a.
Proof. induction a as [|x a IH]; cbn; [reflexivity | rewrite IH; reflexivity]. Qed.

Lemma zeros_snoc (k : nat) : (Uuid.zeros k ++ "0")%string = Uuid.zeros (S k).
Proof. induction k as [|k IH]; cbn; [reflexivity | rewrite IH; reflexivity]. Qed.

Lemma nibbles_zero (w : nat) : nibbles w 0 = Uuid.zeros w.
Proof.
  induction w as [|w IH]; [reflexivity|].
  cbn [nibbles]. change (0 / 16) with 0. change (0 mod 16) with 0.
  rewrite IH. apply zeros_snoc.
Qed.

Lemma pow16_succ (k : nat) : 16 ^ Z.of_nat (S k) = 16 * 16 ^ Z.of_nat k.
Proof. rewrite Nat2Z.inj_succ, Z.pow_succ_r by lia. reflexivity. Qed.

Lemma hex_of_Z_fuel_length (fuel k : nat) (n : Z) :
  0 <= n < 16 ^ Z.of_nat k -> (1 <= k)%nat ->
  (String.length (Uuid.hex_of_Z_fuel fuel n) <= k)%nat.
Proof.
  revert k n. induction fuel as [|f IH]; intros k n Hn Hk; [cbn; lia|].
  cbn [Uuid.hex_of_Z_fuel].
  destruct (Z.ltb_spec n 16) as [Lt|Ge]; [cbn; lia|].
  rewrite append_length. cbn [String.length].
  destruct k as [|k]; [lia|]. rewrite pow16_succ in Hn.
  destruct k as [|k]; [change (16 ^ Z.of_nat 0) with 1 in Hn; lia|].
  assert (H : (String.length (Uuid.hex_of_Z_fuel f (n / 16)) <= S k)%nat).
  { apply IH; [|lia]. split; [apply Z.div_pos; lia|].
    apply Z.div_lt_upper_bound; lia. }
  lia.
Qed.

Lemma hex_of_Z_fuel_nibbles (fuel : nat) (n : Z) (w : nat) :
  0 <= n < 16 ^ Z.of_nat fuel ->
  (String.length (Uuid.hex_of_Z_fuel fuel n) <= w)%nat ->
  (Uuid.zeros (w - String.length (Uuid.hex_of_Z_fuel fuel n))
   ++ Uuid.hex_of_Z_fuel fuel n)%string
  = nibbles w n.
Proof.
  revert n w. induction fuel as [|f IH]; intros n w Hn Hw.
  { change (16 ^ Z.of_nat 0) with 1 in Hn. assert (n = 0) by lia. subst n.
    cbn [Uuid.hex_of_Z_fuel String.length]. rewrite Nat.sub_0_r, append_empty_r.
    symmetry. apply nibbles_zero. }
  cbn [Uuid.hex_of_Z_fuel] in *.
  destruct (Z.ltb_spec n 16) as [Lt|Ge].
  - cbn [String.length] in *. destruct w as [|w]; [lia|].
    cbn [nibbles]. rewrite Z.div_small, Z.mod_small by lia.
    rewrite nibbles_zero. replace (S w - 1)%nat with w by lia. reflexivity.
  - rewrite append_length in *. cbn [String.length] in *.
    destruct w as [|w]; [lia|].
    cbn [nibbles]. rewrite <- (IH (n / 16) w).
    + rewrite append_assoc.
      replace (S w - (String.length (Uuid.hex_of_Z_fuel f (n / 16)) + 1))%nat
        with (w - String.length (Uuid.hex_of_Z_fuel f (n / 16)))%nat by lia.
      reflexivity.
    + rewrite pow16_succ in Hn. split; [apply Z.div_pos; lia|].
      apply Z.div_lt_upper_bound; lia.
    + lia.
Qed.

Lemma fuel_enough (n : Z) :
  0 <= n -> n < 16 ^ Z.of_nat (S (Z.to_nat (Z.log2 n))).
Proof.
  intros Hn. pose proof (Z.log2_nonneg n) as Hl.
  rewrite Nat2Z.inj_succ, Z2Nat.id by exact Hl.
  destruct (Z.eq_dec n 0) as [->|Hz]; [reflexivity|].
  pose proof (Z.log2_spec n ltac:(lia)) as [_ Hu].
  apply Z.lt_le_trans with (2 ^ Z.succ (Z.log2 n)); [exact Hu|].
  apply Z.pow_le_mono_l. lia.
Qed.

(** ['%0wx' % n] is the low [w] digits of [n] when [n] has no more. *)
Lemma format_032x_nibbles (n : Z) :
  0 <= n < 16 ^ 32 -> Uuid.format_032x n = nibbles 32 n.
Proof.
  intros Hn. unfold Uuid.format_032x, Uuid.format_x.
  apply hex_of_Z_fuel_nibbles.
  - split; [lia | apply fuel_enough; lia].
  - apply hex_of_Z_fuel_length; [exact Hn | lia].
Qed.

Lemma from_bytes_big_snoc (p : bytes) (b : byte) :
  PyBytes.from_bytes_big (p ++ [b])%list = PyBytes.from_bytes_big p * 256 + Zb b.
Proof. unfold PyBytes.from_bytes_big. rewrite fold_left_app. reflexivity. Qed.

Lemma from_bytes_big_range (p : bytes) :
  0 <= PyBytes.from_bytes_big p < 256 ^ Z.of_nat (List.length p).
Proof.
  induction p as [|b p IH] using rev_ind; [cbn; lia|].
  rewrite from_bytes_big_snoc, length_app. cbn [List.length].
  replace (Z.of_nat (List.length p + 1)) with (Z.succ (Z.of_nat (List.length p))) by lia.
  rewrite Z.pow_succ_r by lia. pose proof (Zb_range b). nia.
Qed.

Lemma hex_app (p q : bytes) :
  PyBytes.hex (p ++ q)%list = (PyBytes.hex p ++ PyBytes.hex q)%string.
Proof.
  induction p as [|b p IH]; [reflexivity|].
  cbn [PyBytes.hex app]. rewrite IH. reflexivity.
Qed.

Lemma hex_length (p : bytes) : String.length (PyBytes.hex p) = (2 * List.length p)%nat.
Proof.
  induction p as [|b p IH]; [reflexivity|].
  cbn [PyBytes.hex PyBytes.hex_byte append String.length List.length].
  rewrite IH. lia.
Qed.

(** The digits of a big-endian number are the digits of its bytes. *)
Lemma nibbles_from_bytes_big (p : bytes) :
  nibbles (2 * List.length p) (PyBytes.from_bytes_big p) = PyBytes.hex p.
Proof.
  induction p as [|b p IH] using rev_ind; [reflexivity|].
  rewrite from_bytes_big_snoc, length_app, hex_app. cbn [List.length].
  replace (2 * (List.length p + 1))%nat with (S (S (2 * List.length p))) by lia.
  cbn [nibbles]. pose proof (Zb_range b) as Hb.
  set (n := PyBytes.from_bytes_big p) in *.
  replace ((n * 256 + Zb b) / 16 / 16) with n
    by (rewrite Z.div_div by lia; apply Z.div_unique with (Zb b); lia).
  rewrite IH, append_assoc. f_equal.
  cbn [PyBytes.hex]. unfold PyBytes.hex_byte. rewrite shiftr4, !land15.
  rewrite append_empty_r. cbn [append].
  replace (((n * 256 + Zb b) / 16) mod 16) with ((Zb b / 16) mod 16).
  2:{ replace (n * 256 + Zb b) with (Zb b + (n * 16) * 16) by lia.
      rewrite Z.div_add by lia.
      replace (Zb b / 16 + n * 16) with (Zb b / 16 + n * 16) by lia.
      rewrite Z.mod_add by lia. reflexivity. }
  replace ((n * 256 + Zb b) mod 16) with (Zb b mod 16).
  2:{ replace (n * 256 + Zb b) with (Zb b + (n * 16) * 16) by lia.
      rewrite Z.mod_add by lia. reflexivity. }
  reflexivity.
Qed.

(** [str(uuid.UUID(bytes=payload))] is the canonical text of the bytes. *)
Lemma uuid_str_canonical (payload : bytes) :
  List.length payload = 16%nat ->
  Uuid.str (PyBytes.from_bytes_big payload) = canonical_uuid payload.
Proof.
  intros L. unfold Uuid.str, canonical_uuid.
  assert (F : Uuid.format_032x (PyBytes.from_bytes_big payload) = PyBytes.hex payload).
  { rewrite format_032x_nibbles.
    - rewrite <- nibbles_from_bytes_big, L. reflexivity.
    - pose proof (from_bytes_big_range payload) as R. rewrite L in R.
      change (256 ^ Z.of_nat 16) with (16 ^ 32) in R. exact R. }
  rewrite F, hex_length, L. reflexivity.
Qed.

(** C3.  For bytes whose discriminant is 4 the decoding succeeds exactly
    when there are 18 of them.  With any other number the [try] statement
    raises the error of the exact length, with 18 and the number found, and
    the run ends with status 1 after the lines of that error; with 18 the
    run prints the canonical text of the UUID, the hexadecimal digits of the
    16 bytes after the discriminant in their order, in groups of 8, 4, 4, 4
    and 12. *)
Theorem uuid_exact_length (duid_hex_string : string) (duid_bytes : bytes) :
  discriminant duid_bytes = Some 4 ->
  (succeeds (decode duid_hex_string duid_bytes) <-> List.length duid_bytes = 18%nat)
  /\ (List.length duid_bytes <> 18%nat ->
      let e := ValueError (UUID_length 18 (Z.of_nat (List.length duid_bytes))) in
      fst (try_decode duid_hex_string duid_bytes) = Raise e
      /\ decode duid_hex_string duid_bytes
         = {| output := ((header_lines duid_hex_string duid_bytes ++ [type_line 4])
                         ++ handler e)%list;
              status := 1 |})
  /\ (List.length duid_bytes = 18%nat ->
      decode duid_hex_string duid_bytes
      = {| output := (header_lines duid_hex_string duid_bytes
                      ++ [ type_line 4;
                           ("UUID: " ++ canonical_uuid (skipn 2 duid_bytes))%string ])%list;
           status := 0 |}).
Proof.
  intros D. pose proof (discriminant_length _ _ D) as L.
  rewrite try_decode_summary, decode_by_summary by exact L.
  unfold summary. rewrite D. cbn [Z.eqb Pos.eqb fst snd].
  destruct (Nat.eqb_spec (List.length duid_bytes) 18) as [E|N]; cbn [fst snd].
  - assert (P : List.length (skipn 2 duid_bytes) = 16%nat)
      by (rewrite length_skipn; lia).
    unfold UUID_lines. rewrite (uuid_str_canonical _ P).
    split; [split; [intros _; exact E | reflexivity]|].
    split; [intros N; contradiction | reflexivity].
  - split; [split; [intros S; discriminate S | intros E; contradiction]|].
    split; [intros _; split; reflexivity | intros E; contradiction].
Qed.

Lemma uuid_exact_length_witness :
  discriminant [x00; x04; x00; x11; x22; x33; x44; x55; x66; x77;
                x88; x99; xaa; xbb; xcc; xdd; xee; xff] = Some 4
  /\ decode "" [x00; x04; x00; x11; x22; x33; x44; x55; x66; x77;
                x88; x99; xaa; xbb; xcc; xdd; xee; xff]
     = {| output :=
            [ "Input DUID Hex: "; "Total DUID Length: 18 bytes";
              "DUID Type: 4 [DUID-UUID - Universally Unique IDentifier]";
              "UUID: 00112233-4455-6677-8899-aabbccddeeff" ];
          status := 0 |}.
Proof.
  assert (D : discriminant [x00; x04; x00; x11; x22; x33; x44; x55; x66; x77;
                            x88; x99; xaa; xbb; xcc; xdd; xee; xff] = Some 4)
    by reflexivity.
  split; [exact D|].
  rewrite (proj2 (proj2 (uuid_exact_length "" _ D)) eq_refl). reflexivity.
Defined.

Example uuid_too_long :
  decode "" [x00; x04; x00; x11; x22; x33; x44; x55; x66; x77;
             x88; x99; xaa; xbb; xcc; xdd; xee; xff; x00]
  = {| output :=
         [ "Input DUID Hex: "; "Total DUID Length: 19 bytes";
           "DUID Type: 4 [DUID-UUID - Universally Unique IDentifier]";
           LF ++ "Error: Invalid DUID data for the declared type.";
           "Details: DUID-UUID must be exactly 18 bytes long, found 19" ];
       status := 1 |}.
Proof. reflexivity. Qed.

(** ** The rendering of a link-layer address *)

Lemma substring_pair (a c : ascii) (s : string) (k : nat) :
  substring (2 * S k) 2 (String a (String c s)) = substring (2 * k) 2 s.
Proof. replace (2 * S k)%nat with (S (S (2 * k))) by lia. reflexivity. Qed.

Lemma pairs_of_hex (bs : bytes) :
  map (fun k => substring (2 * k) 2 (PyBytes.hex bs)) (seq 0 (List.length bs))
  = map PyBytes.hex_byte bs.
Proof.
  induction bs as [|b r IH]; [reflexivity|].
  cbn [List.length seq map]. f_equal.
  - cbn [PyBytes.hex]. unfold PyBytes.hex_byte. cbn [append Nat.mul substring].
    destruct (PyBytes.hex r); reflexivity.
  - rewrite <- seq_shift, map_map, <- IH.
    apply map_ext. intros k. cbn [PyBytes.hex].
    unfold PyBytes.hex_byte at 1. cbn [append]. apply substring_pair.
Qed.

(** The pairs the script cuts out of [lla_hex] are the digits of the bytes,
    byte by byte. *)
Lemma join_pairs_hex (bs : bytes) :
  PyStr.join_pairs ":" (PyBytes.hex bs) = colon_pairs bs.
Proof.
  unfold PyStr.join_pairs, colon_pairs, PyStr.range2. f_equal.
  rewrite hex_length, Nat.add_1_r, Nat.div2_succ_double, map_map.
  apply pairs_of_hex.
Qed.

Lemma last_app_cons {A} (h : list A) (x : A) (l : list A) (d : A) :
  last (h ++ x :: l) d = last (x :: l) d.
Proof.
  induction h as [|y h IH]; [reflexivity|].
  cbn [app]. rewrite <- IH. destruct h; reflexivity.
Qed.

(** C1, as it is stated, fails: a DUID-LL with the hardware type 6 and an
    address of six bytes is decoded with the address in colon-separated
    pairs, followed by [(Hex)]. *)
Lemma plain_hex_rule_fails :
  ~ lla_rendered_by plain_hex_rule "00030006aabbccddeeff"
      [x00; x03; x00; x06; xaa; xbb; xcc; xdd; xee; xff].
Proof.
  intros H. destruct (H (or_intror eq_refl) eq_refl) as [r [R P]].
  unfold renders_lla in R. vm_compute in R.
  inversion R; subst r. vm_compute in P. discriminate P.
Qed.

(** C1, amended.  In every DUID-LLT and DUID-LL decoding that succeeds the
    link-layer address, the bytes after the fixed fields, is printed last
    and rendered as colon-separated hexadecimal pairs: alone when the
    hardware type is 1 and the address has six bytes, and followed by
    [(Hex)] otherwise. *)
Theorem lla_rendering_rule (duid_hex_string : string) (duid_bytes : bytes) :
  lla_rendered_by tagged_pairs_rule duid_hex_string duid_bytes.
Proof.
  intros D S.
  assert (L : (2 <= List.length duid_bytes)%nat)
    by (destruct D as [D|D]; apply (discriminant_length _ _ D)).
  unfold succeeds in S. unfold renders_lla, tagged_pairs_rule, ethernet_mac,
                        link_layer_address.
  rewrite decode_by_summary in S |- * by exact L.
  unfold summary in *.
  destruct D as [D|D]; rewrite D in *; cbn [Z.eqb Pos.eqb fixed_header_length] in *;
    match type of S with
    | context [(?a <? ?b)%nat] => destruct (Nat.ltb_spec a b); [discriminate S|]
    end; cbn [fst snd output];
    unfold LLT_lines, LL_lines; rewrite last_app_cons; cbn [last];
    eexists; (split; [reflexivity|]);
    unfold lla_rendering; rewrite join_pairs_hex;
    match goal with
    | |- context [if ?c then _ else _] => destruct c
    end; reflexivity.
Qed.

Lemma lla_rendering_rule_witness :
  discriminant [x00; x03; x00; x06; xaa; xbb; xcc; xdd; xee; xff] = Some 3
  /\ succeeds (decode "00030006aabbccddeeff"
                      [x00; x03; x00; x06; xaa; xbb; xcc; xdd; xee; xff])
  /\ exists rendering,
      renders_lla (decode "00030006aabbccddeeff"
                          [x00; x03; x00; x06; xaa; xbb; xcc; xdd; xee; xff])
                  rendering
      /\ tagged_pairs_rule [x00; x03; x00; x06; xaa; xbb; xcc; xdd; xee; xff] rendering.
Proof.
  assert (D : discriminant [x00; x03; x00; x06; xaa; xbb; xcc; xdd; xee; xff] = Some 3)
    by reflexivity.
  assert (S : succeeds (decode "00030006aabbccddeeff"
                               [x00; x03; x00; x06; xaa; xbb; xcc; xdd; xee; xff]))
    by reflexivity.
  exact (conj D (conj S (lla_rendering_rule _ _ (or_intror D) S))).
Defined.

Example lla_samples :
  renders_lla (decode "" [x00; x03; x00; x06; xaa; xbb; xcc; xdd; xee; xff])
              "aa:bb:cc:dd:ee:ff (Hex)"
  /\ renders_lla (decode "" [x00; x03; x00; x01; xaa; xbb; xcc; xdd; xee; xff])
                 "aa:bb:cc:dd:ee:ff"
  /\ renders_lla (decode "" [x00; x03; x00; x01; xaa; xbb]) "aa:bb (Hex)"
  /\ renders_lla (decode "" [x00; x03; x00; x01]) " (Hex)".
Proof. repeat split; reflexivity. Qed.

(** ** The timestamp of a DUID-LLT *)

Lemma years_within_spec (lo hi : Z) (count : nat) (n : Z) :
  years_within lo hi count n = true ->
  forall m, n <= m < n + Z.of_nat count -> lo <= year_of_ordinal m <= hi.
Proof.
  revert n. induction count as [|c IH]; intros n H m Hm; [lia|].
  cbn [years_within] in H.
  apply andb_prop in H as [H Hr]. apply andb_prop in H as [H1 H2].
  apply Z.leb_le in H1, H2.
  destruct (Z.eq_dec m n) as [->|Hn]; [lia|].
  apply (IH (n + 1) Hr). lia.
Qed.

(** The years of all the days within reach of a 32-bit number of seconds,
    by enumeration. *)
Lemma years_in_reach :
  years_within 2000 2136 (Z.to_nat 49711) epoch_ordinal = true.
Proof. vm_compute. reflexivity. Qed.

Lemma year_of_ordinal_bounds (d : Z) :
  0 <= d <= 49710 -> 2000 <= year_of_ordinal (epoch_ordinal + d) <= 2136.
Proof.
  intros H. apply (years_within_spec _ _ _ _ years_in_reach).
  rewrite Z2Nat.id by lia. lia.
Qed.

(** The sum the script computes, for a number of seconds of 32 bits. *)
Lemma actual_datetime_32 (time_val : Z) :
  0 <= time_val < 2 ^ 32 ->
  actual_datetime time_val
  = Some (let '(y, m, d) := Datetime._ord2ymd (epoch_ordinal + time_val / 86400) in
          {| Datetime.year := y; Datetime.month := m; Datetime.day := d;
             Datetime.hour := (time_val mod 86400) / 3600;
             Datetime.minute := ((time_val mod 86400) mod 3600) / 60;
             Datetime.second := ((time_val mod 86400) mod 3600) mod 60 |}).
Proof.
  intros Ht.
  assert (Hd : 0 <= time_val / 86400 <= 49710).
  { split; [apply Z.div_pos; lia|].
    apply Z.lt_succ_r. apply Z.div_lt_upper_bound; [lia|].
    change (2 ^ 32) with 4294967296 in Ht. lia. }
  pose proof (Z.mod_pos_bound time_val 86400 ltac:(lia)) as Hs.
  unfold actual_datetime, Datetime.mk_timedelta.
  destruct (Z.gtb_spec (Z.abs (0 + time_val / 86400)) 999999999) as [G|_]; [lia|].
  unfold Datetime.add, Datetime.mk_timedelta.
  change (Datetime.toordinal duid_epoch) with epoch_ordinal.
  cbn [duid_epoch Datetime.hour Datetime.minute Datetime.second
       Datetime.days Datetime.seconds].
  change (0 * 3600 + 0 * 60 + 0) with 0.
  change (0 / 86400) with 0. change (0 mod 86400) with 0.
  change (Z.abs (epoch_ordinal + 0) >? 999999999) with false. cbv iota.
  cbn [Datetime.days Datetime.seconds].
  rewrite !Z.add_0_l, !Z.add_0_r.
  rewrite (Z.div_small (time_val mod 86400)) by lia.
  rewrite (Z.mod_small (time_val mod 86400) 86400) by lia.
  rewrite Z.add_0_r.
  unfold epoch_ordinal, Datetime._MAXORDINAL in *.
  destruct (Z.gtb_spec (Z.abs (730120 + time_val / 86400)) 999999999) as [G|_]; [lia|].
  cbn [Datetime.days Datetime.seconds].
  destruct (Z.ltb_spec 0 (730120 + time_val / 86400)) as [_|G]; [|lia].
  destruct (Z.leb_spec (730120 + time_val / 86400) 3652059) as [_|G]; [|lia].
  cbn [andb].
  destruct (Datetime._ord2ymd (730120 + time_val / 86400)) as [[y m] d].
  reflexivity.
Qed.

Lemma actual_datetime_year (time_val : Z) :
  0 <= time_val < 2 ^ 32 ->
  exists dt,
    actual_datetime time_val = Some dt
    /\ 2000 <= Datetime.year dt <= 2136.
Proof.
  intros Ht. rewrite actual_datetime_32 by exact Ht.
  eexists. split; [reflexivity|].
  assert (Hd : 0 <= time_val / 86400 <= 49710).
  { split; [apply Z.div_pos; lia|].
    apply Z.lt_succ_r. apply Z.div_lt_upper_bound; [lia|].
    change (2 ^ 32) with 4294967296 in Ht. lia. }
  pose proof (year_of_ordinal_bounds (time_val / 86400) Hd) as Y.
  unfold year_of_ordinal in Y.
  destruct (Datetime._ord2ymd (epoch_ordinal + time_val / 86400)) as [[y m] d].
  exact Y.
Qed.

Lemma time_offset_range (duid_bytes : bytes) : 0 <= time_offset duid_bytes < 2 ^ 32.
Proof.
  unfold time_offset.
  pose proof (from_bytes_big_range (firstn 4 (skipn 4 duid_bytes))) as R.
  pose proof (firstn_le_length 4 (skipn 4 duid_bytes)) as L.
  assert (P : 256 ^ Z.of_nat (List.length (firstn 4 (skipn 4 duid_bytes))) <= 256 ^ 4)
    by (apply Z.pow_le_mono_r; lia).
  change (256 ^ 4) with (2 ^ 32) in P. lia.
Qed.

(** C10.  Midnight of 2000-01-01 UTC plus any number of seconds of 32 bits
    is a [datetime] of a year from 2000 to 2136: neither the [timedelta]
    nor the sum overflows, and the script prints the timestamp, not the
    warning.  So every DUID-LLT decoding that succeeds has a time of 32 bits
    and prints its timestamp, on the line after the seconds. *)
Theorem timestamp_never_overflows :
  (forall time_val,
      0 <= time_val < 2 ^ 32 ->
      exists dt,
        actual_datetime time_val = Some dt
        /\ 2000 <= Datetime.year dt <= 2136
        /\ timestamp_line time_val
           = ("Calculated Timestamp (UTC): " ++ Datetime.isoformat dt)%string)
  /\ (forall duid_hex_string duid_bytes,
         discriminant duid_bytes = Some 1 ->
         succeeds (decode duid_hex_string duid_bytes) ->
         0 <= time_offset duid_bytes < 2 ^ 32
         /\ exists dt,
             actual_datetime (time_offset duid_bytes) = Some dt
             /\ nth 5 (output (decode duid_hex_string duid_bytes)) EmptyString
                = ("Calculated Timestamp (UTC): " ++ Datetime.isoformat dt)%string).
Proof.
  assert (A : forall time_val,
             0 <= time_val < 2 ^ 32 ->
             exists dt,
               actual_datetime time_val = Some dt
               /\ 2000 <= Datetime.year dt <= 2136
               /\ timestamp_line time_val
                  = ("Calculated Timestamp (UTC): " ++ Datetime.isoformat dt)%string).
  { intros t Ht. destruct (actual_datetime_year t Ht) as [dt [E Y]].
    exists dt. split; [exact E|]. split; [exact Y|].
    unfold timestamp_line. rewrite E. reflexivity. }
  split; [exact A|].
  intros s bs D S. pose proof (time_offset_range bs) as R.
  split; [exact R|].
  destruct (A _ R) as [dt [E [_ T]]]. exists dt. split; [exact E|].
  pose proof (discriminant_length _ _ D) as L.
  unfold succeeds in S. rewrite decode_by_summary in S |- * by exact L.
  unfold summary in *. rewrite D in *. cbn [Z.eqb Pos.eqb] in *.
  destruct (Nat.ltb_spec (List.length bs) 8); [discriminate S|].
  cbn [fst snd output]. unfold LLT_lines. rewrite <- T. reflexivity.
Qed.

Lemma timestamp_never_overflows_witness :
  0 <= 4294967295 < 2 ^ 32
  /\ exists dt,
      actual_datetime 4294967295 = Some dt
      /\ 2000 <= Datetime.year dt <= 2136
      /\ timestamp_line 4294967295
         = ("Calculated Timestamp (UTC): " ++ Datetime.isoformat dt)%string.
Proof.
  assert (R : 0 <= 4294967295 < 2 ^ 32) by (cbn; lia).
  split; [exact R|].
  exact (proj1 timestamp_never_overflows 4294967295 R).
Defined.

Example last_second :
  timestamp_line 4294967295 = "Calculated Timestamp (UTC): 2136-02-07T06:28:15+00:00".
Proof. vm_compute. reflexivity. Qed.

(** ** The input normalizer *)

(** C2, as it is stated, fails: ["00 01"] has a blank, which is no
    hexadecimal digit, and an odd length, and is parsed all the same. *)
Lemma blank_between_pairs_is_accepted : ~ fails_iff_not_hex_pairs "00 01".
Proof.
  unfold fails_iff_not_hex_pairs. intros [_ H].
  assert (E : normalize "00 01" = None) by (apply H; left; reflexivity).
  discriminate E.
Qed.

(** C2, amended.  For a string that, the colons removed, has no ASCII
    whitespace, the normalizer fails if and only if the string without its
    colons has a character outside [[0-9a-fA-F]] or an odd length; and when
    it does not fail it returns one byte for each pair of digits, of the
    value of the pair. *)
Theorem normalizer_fails_iff (duid_hex_string : string) :
  let t := PyStr.replace_colon duid_hex_string in
  all_chars no_space t = true ->
  (normalize duid_hex_string = None
   <-> (all_chars is_hexdigit t = false \/ Nat.odd (String.length t) = true))
  /\ forall duid_bytes,
       normalize duid_hex_string = Some duid_bytes ->
       String.length t = (2 * List.length duid_bytes)%nat
       /\ forall i, (i < List.length duid_bytes)%nat ->
            Zb (nth i duid_bytes x00)
            = 16 * digit_at t (2 * i) + digit_at t (2 * i + 1).
Proof.
  intros t Hs. unfold normalize. fold t. split.
  - apply fromhex_fails_iff. exact Hs.
  - intros bs E. apply fromhex_bytes; assumption.
Qed.

Lemma normalizer_fails_iff_witness :
  all_chars no_space (PyStr.replace_colon "00:0g") = true
  /\ (normalize "00:0g" = None
      <-> (all_chars is_hexdigit (PyStr.replace_colon "00:0g") = false
           \/ Nat.odd (String.length (PyStr.replace_colon "00:0g")) = true)).
Proof.
  assert (Hs : all_chars no_space (PyStr.replace_colon "00:0g") = true)
    by reflexivity.
  exact (conj Hs (proj1 (normalizer_fails_iff "00:0g" Hs))).
Defined.

Example malformed_samples :
  normalize "00:0g" = None /\ normalize "00:1" = None /\ normalize "0 0" = None
  /\ normalize "00:1f" = Some [x00; x1f].
Proof. repeat split; reflexivity. Qed.

(** Whitespace in front of a pair is skipped, whatever follows. *)
Lemma fromhex_skips_space (c : ascii) (s : string) :
  PyBytes.Py_ISSPACE c = true ->
  PyBytes.fromhex (String c s) = PyBytes.fromhex s.
Proof. intros H. cbn [PyBytes.fromhex]. rewrite H. reflexivity. Qed.


(** * Further properties of the script *)

(** ** The exit status *)

Lemma summary_Ok_iff (duid_bytes : bytes) :
  (exists u, fst (fst (summary duid_bytes)) = Ok u) <-> accepted duid_bytes = true.
Proof.
  unfold summary, accepted.
  destruct (discriminant duid_bytes) as [code|];
    [|split; [intros [u H]; discriminate H | discriminate]].
  repeat match goal with
         | |- context [if (?c =? ?k) then _ else _] => destruct (c =? k)
         end;
    repeat match goal with
           | |- context [(?a <? ?b)%nat] => destruct (Nat.ltb_spec a b)
           | |- context [(?a <=? ?b)%nat] => destruct (Nat.leb_spec a b)
           | |- context [(?a =? ?b)%nat] => destruct (Nat.eqb_spec a b)
           end; cbn [fst snd]; try lia;
    (split; [intros [u Hu]; try discriminate Hu; reflexivity
            | intros Hu; try discriminate Hu; exists tt; reflexivity]).
Qed.

Lemma decode_status (duid_hex_string : string) (duid_bytes : bytes) :
  status (decode duid_hex_string duid_bytes)
  = if accepted duid_bytes then 0 else 1.
Proof.
  destruct (Nat.lt_ge_cases (List.length duid_bytes) 2) as [L|L].
  - rewrite decode_too_short by exact L.
    unfold accepted. rewrite discriminant_short by exact L. reflexivity.
  - rewrite decode_by_summary by exact L.
    pose proof (summary_Ok_iff duid_bytes) as I.
    destruct (fst (fst (summary duid_bytes))) as [u|e].
    + rewrite (proj1 I (ex_intro _ u eq_refl)). reflexivity.
    + destruct (accepted duid_bytes); [|reflexivity].
      destruct (proj2 I eq_refl) as [u H]. discriminate H.
Qed.

(** X1.  The script ends with status 0 exactly when it is given one
    argument, the argument is normalized to bytes, and the bytes have a
    discriminant and the length their DUID type asks for: 8 or more for
    type 1, 6 or more for type 2, 4 or more for type 3, 18 for type 4, any
    for another type.  In every other case it ends with status 1. *)
Theorem main_exit_status (argv : list string) :
  (status (main argv) = 0
   <-> exists argv0 duid_hex_string duid_bytes,
        argv = [argv0; duid_hex_string]
        /\ normalize duid_hex_string = Some duid_bytes
        /\ accepted duid_bytes = true)
  /\ (status (main argv) = 0 \/ status (main argv) = 1).
Proof.
  destruct argv as [|a [|s [|x r]]];
    try (split; [split; [intros H; discriminate H
                        | intros [a0 [s0 [b0 [E _]]]]; discriminate E]
                | right; reflexivity]).
  unfold main. destruct (normalize s) as [bs|] eqn:N.
  - rewrite decode_status. split.
    + split.
      * intros H. exists a, s, bs. repeat split; [exact N|].
        destruct (accepted bs); [reflexivity | discriminate H].
      * intros [a0 [s0 [b0 [E [N0 A]]]]]. injection E as <- <-.
        rewrite N in N0. injection N0 as <-. rewrite A. reflexivity.
    + destruct (accepted bs); [left | right]; reflexivity.
  - split; [|right; reflexivity].
    split; [intros H; discriminate H|].
    intros [a0 [s0 [b0 [E [N0 _]]]]]. injection E as <- <-.
    rewrite N in N0. discriminate N0.
Qed.

Lemma main_exit_status_witness :
  status (main ["dec.py"; "00:03:00:01:aa:bb"]) = 0.
Proof.
  apply (proj1 (main_exit_status ["dec.py"; "00:03:00:01:aa:bb"])).
  exists "dec.py", "00:03:00:01:aa:bb", [x00; x03; x00; x01; xaa; xbb].
  repeat split.
Defined.

(** ** The fixed fields *)

(** X3.  A DUID-LLT, DUID-EN or DUID-LL without the bytes of its fixed
    fields is refused before any field is read: the [try] statement raises
    the too-short error of its type with the read position still behind
    the discriminant, and the run is the header, the line of the type and
    the two lines of the handler, with status 1. *)
Theorem fixed_fields_too_short
        (duid_hex_string : string) (duid_bytes : bytes) (code : Z) :
  discriminant duid_bytes = Some code ->
  code = 1 \/ code = 2 \/ code = 3 ->
  (List.length duid_bytes < fixed_header_length code)%nat ->
  try_decode duid_hex_string duid_bytes
  = (Raise (ValueError (too_short_error code)),
     {| data_buf := duid_bytes; data_pos := 2;
        stdout := (header_lines duid_hex_string duid_bytes ++ [type_line code])%list |})
  /\ decode duid_hex_string duid_bytes
     = {| output :=
            (header_lines duid_hex_string duid_bytes
             ++ [ type_line code;
                  (LF ++ "Error: Invalid DUID data for the declared type.")%string;
                  ("Details: " ++ value_error_message (too_short_error code))%string ])%list;
          status := 1 |}.
Proof.
  intros D C L. pose proof (discriminant_length _ _ D) as L2.
  rewrite decode_by_summary, try_decode_summary by exact L2.
  unfold summary. rewrite D.
  destruct C as [-> | [-> | ->]]; cbn [Z.eqb Pos.eqb fixed_header_length] in *;
    match goal with
    | |- context [(?a <? ?b)%nat] => destruct (Nat.ltb_spec a b); [|lia]
    end; cbn [fst snd]; (split; [reflexivity|]);
    rewrite <- app_assoc; reflexivity.
Qed.

Lemma fixed_fields_too_short_witness :
  discriminant [x00; x01; x00; x01] = Some 1
  /\ (List.length [x00; x01; x00; x01] < fixed_header_length 1)%nat
  /\ decode "00010001" [x00; x01; x00; x01]
     = {| output :=
            [ "Input DUID Hex: 00010001"; "Total DUID Length: 4 bytes";
              "DUID Type: 1 [DUID-LLT - Link-layer address plus time]";
              LF ++ "Error: Invalid DUID data for the declared type.";
              "Details: DUID-LLT is too short for fixed fields" ];
          status := 1 |}.
Proof.
  assert (D : discriminant [x00; x01; x00; x01] = Some 1) by reflexivity.
  assert (L : (List.length [x00; x01; x00; x01] < fixed_header_length 1)%nat)
    by (cbn; lia).
  split; [exact D|]. split; [exact L|].
  rewrite (proj2 (fixed_fields_too_short "00010001" _ 1 D (or_introl eq_refl) L)).
  reflexivity.
Defined.

(** X4.  A DUID-EN of six bytes or more is decoded with status 0: after the
    header the run prints the type, the enterprise number, which is the
    big-endian value of bytes 2 to 5 and lies below 2^32, and the
    identifier, all the bytes from the sixth on in hexadecimal, from which
    [bytes.fromhex] gives them back. *)
Theorem en_decoding (duid_hex_string : string) (duid_bytes : bytes) :
  discriminant duid_bytes = Some 2 ->
  (6 <= List.length duid_bytes)%nat ->
  let enterprise_num := PyBytes.from_bytes_big (firstn 4 (skipn 2 duid_bytes)) in
  let identifier_bytes := skipn 6 duid_bytes in
  decode duid_hex_string duid_bytes
  = {| output :=
         (header_lines duid_hex_string duid_bytes
          ++ [ type_line 2;
               ("Enterprise Number: " ++ PyStr.str enterprise_num)%string;
               ("Identifier: 0x" ++ PyBytes.hex identifier_bytes)%string ])%list;
       status := 0 |}
  /\ 0 <= enterprise_num < 2 ^ 32
  /\ PyBytes.fromhex (PyBytes.hex identifier_bytes) = Some identifier_bytes.
Proof.
  intros D L n ident.
  rewrite decode_by_summary by lia.
  unfold summary. rewrite D. cbn [Z.eqb Pos.eqb].
  destruct (Nat.ltb_spec (List.length duid_bytes) 6); [lia|].
  cbn [fst snd]. split; [reflexivity|]. split; [|apply fromhex_hex].
  subst n. pose proof (from_bytes_big_range (firstn 4 (skipn 2 duid_bytes))) as R.
  pose proof (firstn_le_length 4 (skipn 2 duid_bytes)) as F.
  assert (P : 256 ^ Z.of_nat (List.length (firstn 4 (skipn 2 duid_bytes))) <= 256 ^ 4)
    by (apply Z.pow_le_mono_r; lia).
  change (256 ^ 4) with (2 ^ 32) in P. lia.
Qed.

Lemma en_decoding_witness :
  discriminant [x00; x02; x00; x00; x00; x09; x01; x02; x03; x04; x05] = Some 2
  /\ (6 <= List.length [x00; x02; x00; x00; x00; x09; x01; x02; x03; x04; x05])%nat
  /\ decode "" [x00; x02; x00; x00; x00; x09; x01; x02; x03; x04; x05]
     = {| output :=
            [ "Input DUID Hex: "; "Total DUID Length: 11 bytes";
              "DUID Type: 2 [DUID-EN - Vendor-assigned unique ID based on Enterprise Number]";
              "Enterprise Number: 9"; "Identifier: 0x0102030405" ];
          status := 0 |}.
Proof.
  assert (D : discriminant [x00; x02; x00; x00; x00; x09; x01; x02; x03; x04; x05]
              = Some 2) by reflexivity.
  assert (L : (6 <= List.length [x00; x02; x00; x00; x00; x09; x01; x02; x03; x04; x05])%nat)
    by (cbn; lia).
  split; [exact D|]. split; [exact L|].
  rewrite (proj1 (en_decoding "" _ D L)). reflexivity.
Defined.

(** X5.  On two bytes or more the [try] statement never raises
    [struct.error], and never the [ValueError] of [uuid.UUID]: every
    [unpack] gets a buffer of the length of its format and [uuid.UUID] gets
    16 bytes, so the handler of lines 163 to 166 does not run. *)
Theorem unpack_errors_unreachable (duid_hex_string : string) (duid_bytes : bytes) :
  (2 <= List.length duid_bytes)%nat ->
  forall e w,
    try_decode duid_hex_string duid_bytes = (Raise e, w) ->
    (forall size, e <> struct_error size) /\ e <> ValueError UUID_bytes.
Proof.
  intros L e w E. rewrite try_decode_summary in E.
  assert (R : fst (fst (summary duid_bytes)) = Raise e) by congruence.
  clear E. unfold summary in R.
  destruct duid_bytes as [|b0 [|b1 rest]]; try (cbn [List.length] in L; lia).
  rewrite discriminant_cons in R.
  repeat match type of R with
         | context [if ?c then _ else _] => destruct c
         end; cbn [fst snd] in R; try discriminate R;
    injection R as <-; split; try (intros size); discriminate.
Qed.

Lemma unpack_errors_unreachable_witness :
  (2 <= List.length [x00; x04; x01])%nat
  /\ try_decode "000401" [x00; x04; x01]
     = (Raise (ValueError (UUID_length 18 3)),
        {| data_buf := [x00; x04; x01]; data_pos := 2;
           stdout := ["Input DUID Hex: 000401"; "Total DUID Length: 3 bytes";
                      "DUID Type: 4 [DUID-UUID - Universally Unique IDentifier]"] |})
  /\ ValueError (UUID_length 18 3) <> ValueError UUID_bytes.
Proof.
  assert (L : (2 <= List.length [x00; x04; x01])%nat) by (cbn; lia).
  assert (E : try_decode "000401" [x00; x04; x01]
              = (Raise (ValueError (UUID_length 18 3)),
                 {| data_buf := [x00; x04; x01]; data_pos := 2;
                    stdout := ["Input DUID Hex: 000401"; "Total DUID Length: 3 bytes";
                               "DUID Type: 4 [DUID-UUID - Universally Unique IDentifier]"] |}))
    by reflexivity.
  split; [exact L|]. split; [exact E|].
  exact (proj2 (unpack_errors_unreachable "000401" [x00; x04; x01] L _ _ E)).
Defined.

(** X10.  Whatever comes of the decoding, a run on two bytes or more starts
    with the line of the input, the line of the total length and the line
    of the DUID type: they are printed before any check of the length. *)
Theorem header_before_checks
        (duid_hex_string : string) (duid_bytes : bytes) (code : Z) :
  discriminant duid_bytes = Some code ->
  firstn 3 (output (decode duid_hex_string duid_bytes))
  = [ ("Input DUID Hex: " ++ duid_hex_string)%string;
      ("Total DUID Length: " ++ PyStr.str (Z.of_nat (List.length duid_bytes))
       ++ " bytes")%string;
      type_line code ].
Proof.
  intros D. pose proof (discriminant_length _ _ D) as L.
  rewrite decode_by_summary by exact L.
  unfold summary. rewrite D.
  repeat match goal with
         | |- context [if ?c =? ?k then _ else _] =>
           destruct (Z.eqb_spec c k); [subst code|]
         end;
    repeat match goal with
           | |- context [if ?c then _ else _] => destruct c
           end; reflexivity.
Qed.

Lemma header_before_checks_witness :
  discriminant [x00; x04; x01] = Some 4
  /\ firstn 3 (output (decode "000401" [x00; x04; x01]))
     = [ "Input DUID Hex: 000401"; "Total DUID Length: 3 bytes";
         "DUID Type: 4 [DUID-UUID - Universally Unique IDentifier]" ].
Proof.
  assert (D : discriminant [x00; x04; x01] = Some 4) by reflexivity.
  split; [exact D|].
  rewrite (header_before_checks "000401" [x00; x04; x01] 4 D). reflexivity.
Defined.

(** X11.  The discriminant is a number below 65536 and fixes the first two
    bytes: they are its high and its low byte.  So a DUID is of a type
    exactly when it starts with the two bytes of that type. *)
Theorem discriminant_bytes (duid_bytes : bytes) (code : Z) :
  discriminant duid_bytes = Some code
  <-> 0 <= code < 65536
      /\ firstn 2 duid_bytes = [byte_of_Z (code / 256); byte_of_Z (code mod 256)].
Proof.
  split.
  - intros D. pose proof (discriminant_length _ _ D) as L.
    destruct duid_bytes as [|b0 [|b1 rest]]; try (cbn [List.length] in L; lia).
    rewrite discriminant_cons in D. injection D as <-.
    unfold PyBytes.from_bytes_big. cbn [fold_left firstn].
    pose proof (Zb_range b0). pose proof (Zb_range b1).
    replace (((0 * 256 + Zb b0) * 256 + Zb b1) / 256) with (Zb b0)
      by (apply Z.div_unique with (Zb b1); lia).
    replace (((0 * 256 + Zb b0) * 256 + Zb b1) mod 256) with (Zb b1)
      by (apply Z.mod_unique with (Zb b0); lia).
    rewrite !byte_of_Z_Zb. split; [lia | reflexivity].
  - intros [R F].
    destruct duid_bytes as [|b0 [|b1 rest]]; try discriminate F.
    cbn [firstn] in F. injection F as -> ->.
    rewrite discriminant_cons. f_equal.
    unfold PyBytes.from_bytes_big. cbn [fold_left].
    assert (0 <= code / 256 < 256)
      by (split; [apply Z.div_pos; lia | apply Z.div_lt_upper_bound; lia]).
    pose proof (Z.mod_pos_bound code 256 ltac:(lia)).
    rewrite !Zb_byte_of_Z by lia.
    pose proof (Z.div_mod code 256 ltac:(lia)). lia.
Qed.

(** ** The input normalizer, on any string *)

(** Induction on a string that gives both the string without its first
    character and the one without its first two. *)
Lemma string_two_step_ind (P : string -> Prop) :
  P EmptyString ->
  (forall c, P (String c EmptyString)) ->
  (forall c d s, P s -> P (String d s) -> P (String c (String d s))) ->
  forall s, P s.
Proof.
  intros H0 H1 H2 s.
  assert (H : P s /\ forall c, P (String c s)).
  { induction s as [|a s [IHs IHc]].
    - split; [exact H0 | exact H1].
    - split; [apply IHc | intros c; apply H2; [exact IHs | apply IHc]]. }
  exact (proj1 H).
Qed.

Lemma replace_colon_app (a b : string) :
  PyStr.replace_colon (a ++ b)
  = (PyStr.replace_colon a ++ PyStr.replace_colon b)%string.
Proof.
  induction a as [|c a IH]; [reflexivity|].
  cbn [append PyStr.replace_colon]. rewrite IH.
  destruct (Ascii.eqb c ":"); reflexivity.
Qed.

(** What [fromhex] accepts consists of digits and whitespace, two digits
    for each byte. *)
Lemma fromhex_some_chars (t : string) (bs : bytes) :
  PyBytes.fromhex t = Some bs ->
  all_chars hex_or_space t = true
  /\ count_chars no_space t = (2 * List.length bs)%nat.
Proof.
  revert bs. induction t as [| c | c d s IH1 IH2] using string_two_step_ind;
    intros bs E.
  - injection E as <-. split; reflexivity.
  - destruct (PyBytes.Py_ISSPACE c) eqn:Sc.
    + rewrite fromhex_skips_space in E by exact Sc. injection E as <-.
      cbn [all_chars count_chars]. unfold hex_or_space, no_space. rewrite Sc.
      rewrite orb_true_r. split; reflexivity.
    + rewrite fromhex_single in E by exact Sc. discriminate E.
  - destruct (PyBytes.Py_ISSPACE c) eqn:Sc.
    + rewrite fromhex_skips_space in E by exact Sc.
      destruct (IH2 bs E) as [A C].
      cbn [all_chars count_chars] in *. unfold hex_or_space at 1, no_space at 1.
      rewrite Sc, orb_true_r. cbn [andb negb]. split; assumption.
    + rewrite fromhex_pair in E by exact Sc.
      destruct (is_hexdigit c) eqn:Xc; cbn [andb] in E; [|discriminate E].
      destruct (is_hexdigit d) eqn:Xd; cbn [andb] in E; [|discriminate E].
      destruct (PyBytes.fromhex s) as [bs'|] eqn:Es; cbn [option_map] in E;
        [|discriminate E].
      assert (Ebs : bs = byte_of_Z (Z.shiftl (PyBytes.PyLong_DigitValue c) 4
                                    + PyBytes.PyLong_DigitValue d) :: bs')
        by congruence.
      rewrite Ebs. clear E Ebs.
      destruct (IH1 bs' eq_refl) as [A C].
      cbn [all_chars count_chars List.length]. unfold hex_or_space at 1 2, no_space at 1 2.
      rewrite Xc, Xd, Sc, (hexdigit_not_space d Xd). cbn [orb andb negb].
      split; [exact A | lia].
Qed.

(** X2.  A string is refused as malformed when, its colons removed, it has
    a character that is neither a hexadecimal digit nor ASCII whitespace,
    or an odd number of characters other than whitespace: the script
    prints the two lines of the error and ends with status 1. *)
Theorem malformed_hex_rejected (argv0 duid_hex_string : string) :
  let t := PyStr.replace_colon duid_hex_string in
  all_chars hex_or_space t = false \/ Nat.odd (count_chars no_space t) = true ->
  normalize duid_hex_string = None
  /\ main [argv0; duid_hex_string]
     = {| output :=
            [ ("Error: Invalid hex string format provided: '" ++ duid_hex_string ++ "'")%string;
              "Ensure the string contains only hex characters (0-9, a-f, A-F) and optional colons." ];
          status := 1 |}.
Proof.
  intros t H.
  assert (N : normalize duid_hex_string = None).
  { unfold normalize. fold t. destruct (PyBytes.fromhex t) as [bs|] eqn:E; [|reflexivity].
    destruct (fromhex_some_chars t bs E) as [A C].
    destruct H as [H|H]; [congruence|].
    rewrite C, Nat.odd_mul in H. discriminate H. }
  split; [exact N|]. unfold main. rewrite N. reflexivity.
Qed.

Lemma malformed_hex_rejected_witness :
  (all_chars hex_or_space (PyStr.replace_colon "00 01 2") = false
   \/ Nat.odd (count_chars no_space (PyStr.replace_colon "00 01 2")) = true)
  /\ normalize "00 01 2" = None.
Proof.
  assert (H : all_chars hex_or_space (PyStr.replace_colon "00 01 2") = false
              \/ Nat.odd (count_chars no_space (PyStr.replace_colon "00 01 2")) = true)
    by (right; reflexivity).
  exact (conj H (proj1 (malformed_hex_rejected "dec.py" "00 01 2" H))).
Defined.

Lemma fromhex_app (a b : string) (ba : bytes) :
  PyBytes.fromhex a = Some ba ->
  PyBytes.fromhex (a ++ b) = option_map (app ba) (PyBytes.fromhex b).
Proof.
  revert ba. induction a as [| c | c d s IH1 IH2] using string_two_step_ind;
    intros ba E.
  - injection E as <-. cbn [append]. destruct (PyBytes.fromhex b); reflexivity.
  - destruct (PyBytes.Py_ISSPACE c) eqn:Sc.
    + rewrite fromhex_skips_space in E by exact Sc. injection E as <-.
      cbn [append]. rewrite fromhex_skips_space by exact Sc.
      destruct (PyBytes.fromhex b); reflexivity.
    + rewrite fromhex_single in E by exact Sc. discriminate E.
  - destruct (PyBytes.Py_ISSPACE c) eqn:Sc.
    + rewrite fromhex_skips_space in E by exact Sc.
      change (String c (String d s) ++ b)%string with (String c (String d s ++ b)).
      rewrite fromhex_skips_space by exact Sc. apply IH2. exact E.
    + rewrite fromhex_pair in E by exact Sc.
      change (String c (String d s) ++ b)%string with (String c (String d (s ++ b))).
      rewrite fromhex_pair by exact Sc.
      destruct (is_hexdigit c && is_hexdigit d); [|discriminate E].
      destruct (PyBytes.fromhex s) as [bs'|] eqn:Es; cbn [option_map] in E;
        [|discriminate E].
      rewrite (IH1 bs' eq_refl).
      assert (Eba : ba = byte_of_Z (Z.shiftl (PyBytes.PyLong_DigitValue c) 4
                                    + PyBytes.PyLong_DigitValue d) :: bs')
        by congruence.
      rewrite Eba. destruct (PyBytes.fromhex b); reflexivity.
Qed.

(** X8.  The normalizer goes through a concatenation: when a string is
    normalized to bytes, the string followed by another is normalized to
    those bytes followed by the bytes of the other, and is refused when the
    other is. *)
Theorem normalize_app (a b : string) (ba : bytes) :
  normalize a = Some ba ->
  normalize (a ++ b) = option_map (app ba) (normalize b).
Proof.
  unfold normalize. intros E. rewrite replace_colon_app.
  apply fromhex_app. exact E.
Qed.

Lemma normalize_app_witness :
  normalize "00:01" = Some [x00; x01]
  /\ normalize ("00:01" ++ ":ab cd") = option_map (app [x00; x01]) (normalize ":ab cd").
Proof.
  assert (E : normalize "00:01" = Some [x00; x01]) by reflexivity.
  exact (conj E (normalize_app "00:01" ":ab cd" [x00; x01] E)).
Defined.

Lemma has_colon_replace_colon (s : string) : has_colon (PyStr.replace_colon s) = false.
Proof.
  induction s as [|c s IH]; [reflexivity|].
  cbn [PyStr.replace_colon]. destruct (Ascii.eqb c ":") eqn:E; [exact IH|].
  cbn [has_colon]. rewrite E, IH. reflexivity.
Qed.

Lemma replace_colon_none (s : string) :
  has_colon s = false -> PyStr.replace_colon s = s.
Proof.
  induction s as [|c s IH]; [reflexivity|].
  cbn [has_colon PyStr.replace_colon]. intros H. apply orb_false_elim in H as [Hc Hs].
  rewrite Hc, IH by exact Hs. reflexivity.
Qed.

(** X9.  A colon counts for nothing wherever it stands, between two pairs,
    inside a pair, doubled, first or last: a string with a colon put in at
    any place is normalized as the string without it, and a string as the
    string with all its colons removed. *)
Theorem colons_are_ignored (a b : string) :
  normalize (a ++ ":" ++ b) = normalize (a ++ b)
  /\ normalize (PyStr.replace_colon a) = normalize a.
Proof.
  unfold normalize. split.
  - rewrite !replace_colon_app. reflexivity.
  - rewrite (replace_colon_none (PyStr.replace_colon a)); [reflexivity|].
    apply has_colon_replace_colon.
Qed.

Lemma lower_char_space (c : ascii) :
  PyBytes.Py_ISSPACE (lower_char c) = PyBytes.Py_ISSPACE c.
Proof. each_char c; reflexivity. Qed.

Lemma lower_char_value (c : ascii) :
  PyBytes.PyLong_DigitValue (lower_char c) = PyBytes.PyLong_DigitValue c.
Proof. each_char c; reflexivity. Qed.

Lemma lower_char_colon (c : ascii) :
  Ascii.eqb (lower_char c) ":" = Ascii.eqb c ":".
Proof. each_char c; reflexivity. Qed.

Lemma replace_colon_lower (s : string) :
  PyStr.replace_colon (lower s) = lower (PyStr.replace_colon s).
Proof.
  induction s as [|c s IH]; [reflexivity|].
  cbn [lower PyStr.replace_colon]. rewrite lower_char_colon, IH.
  destruct (Ascii.eqb c ":"); reflexivity.
Qed.

Lemma fromhex_lower (t : string) : PyBytes.fromhex (lower t) = PyBytes.fromhex t.
Proof.
  induction t as [| c | c d s IH1 IH2] using string_two_step_ind.
  - reflexivity.
  - cbn [lower PyBytes.fromhex]. rewrite lower_char_space, lower_char_value. reflexivity.
  - change (lower (String c (String d s)))
      with (String (lower_char c) (lower (String d s))).
    destruct (PyBytes.Py_ISSPACE c) eqn:Sc.
    + rewrite !fromhex_skips_space by (rewrite ?lower_char_space; exact Sc). exact IH2.
    + cbn [lower PyBytes.fromhex].
      rewrite !lower_char_space, !lower_char_value, Sc, IH1. reflexivity.
Qed.

(** X7.  The case of the letters of the input does not matter: a string
    and the string in lower case are normalized alike, to the same bytes
    or both refused. *)
Theorem normalize_case_insensitive (duid_hex_string : string) :
  normalize (lower duid_hex_string) = normalize duid_hex_string.
Proof.
  unfold normalize. rewrite replace_colon_lower. apply fromhex_lower.
Qed.

Lemma replace_colon_hex_byte (b : byte) (s : string) :
  PyStr.replace_colon (PyBytes.hex_byte b ++ s)
  = (PyBytes.hex_byte b ++ PyStr.replace_colon s)%string.
Proof. destruct b; reflexivity. Qed.

Lemma replace_colon_hex (bs : bytes) :
  PyStr.replace_colon (PyBytes.hex bs) = PyBytes.hex bs.
Proof.
  induction bs as [|b r IH]; [reflexivity|].
  cbn [PyBytes.hex]. rewrite replace_colon_hex_byte, IH. reflexivity.
Qed.

Lemma replace_colon_colon_pairs (bs : bytes) :
  PyStr.replace_colon (colon_pairs bs) = PyBytes.hex bs.
Proof.
  unfold colon_pairs. induction bs as [|b r IH]; [reflexivity|].
  destruct r as [|b' r].
  - cbn [map String.concat PyBytes.hex].
    rewrite <- (append_empty_r (PyBytes.hex_byte b)) at 1.
    rewrite replace_colon_hex_byte. reflexivity.
  - change (String.concat ":" (map PyBytes.hex_byte (b :: b' :: r)))
      with (PyBytes.hex_byte b ++ ":" ++ String.concat ":" (map PyBytes.hex_byte (b' :: r)))%string.
    rewrite replace_colon_hex_byte.
    change (PyStr.replace_colon (":" ++ ?x)) with (PyStr.replace_colon x).
    rewrite IH. reflexivity.
Qed.

(** X6.  What the script prints of bytes is accepted back as its input:
    the hexadecimal string of any bytes, and their colon-separated pairs as
    for a link-layer address, are normalized to those very bytes. *)
Theorem printed_bytes_round_trip (bs : bytes) :
  normalize (PyBytes.hex bs) = Some bs
  /\ normalize (colon_pairs bs) = Some bs
  /\ normalize (PyStr.join_pairs ":" (PyBytes.hex bs)) = Some bs.
Proof.
  unfold normalize.
  rewrite join_pairs_hex, replace_colon_hex, replace_colon_colon_pairs, fromhex_hex.
  repeat split.
Qed.

(** ** The timestamp, read back *)

Lemma all_from_spec (p : Z -> bool) (count : nat) (n : Z) :
  all_from p count n = true ->
  forall m, n <= m < n + Z.of_nat count -> p m = true.
Proof.
  revert n. induction count as [|c IH]; intros n H m Hm; [lia|].
  cbn [all_from] in H. apply andb_prop in H as [H Hr].
  destruct (Z.eq_dec m n) as [->|Hn]; [exact H|].
  apply (IH (n + 1) Hr). lia.
Qed.

(** The dates of all the days within reach of a 32-bit number of seconds,
    by enumeration. *)
Lemma dates_in_reach :
  all_from date_round_trips (Z.to_nat 49711) epoch_ordinal = true.
Proof. vm_compute. reflexivity. Qed.

(** X12.  The timestamp of a 32-bit number of seconds is a date and a time
    of the calendar (a month from 1 to 12, a day from 1 to 31, an hour
    below 24, a minute and a second below 60) and holds the number: the
    days from the epoch to its date and the seconds of its time of day add
    up to the number of seconds again, so two numbers with the same
    timestamp are the same. *)
Theorem timestamp_round_trip (time_val : Z) :
  0 <= time_val < 2 ^ 32 ->
  exists dt,
    actual_datetime time_val = Some dt
    /\ 1 <= Datetime.month dt <= 12
    /\ 1 <= Datetime.day dt <= 31
    /\ 0 <= Datetime.hour dt < 24
    /\ 0 <= Datetime.minute dt < 60
    /\ 0 <= Datetime.second dt < 60
    /\ (Datetime.toordinal dt - Datetime.toordinal duid_epoch) * 86400
       + Datetime.hour dt * 3600 + Datetime.minute dt * 60 + Datetime.second dt
       = time_val.
Proof.
  intros Ht. rewrite actual_datetime_32 by exact Ht.
  assert (Hd : 0 <= time_val / 86400 <= 49710).
  { split; [apply Z.div_pos; lia|].
    apply Z.lt_succ_r. apply Z.div_lt_upper_bound; [lia|].
    change (2 ^ 32) with 4294967296 in Ht. lia. }
  assert (R : date_round_trips (epoch_ordinal + time_val / 86400) = true).
  { apply (all_from_spec _ _ _ dates_in_reach). rewrite Z2Nat.id by lia. lia. }
  unfold date_round_trips in R.
  change (Datetime.toordinal duid_epoch) with epoch_ordinal.
  destruct (Datetime._ord2ymd (epoch_ordinal + time_val / 86400)) as [[y m] d].
  repeat (apply andb_prop in R; destruct R as [R ?]).
  apply Z.eqb_eq in R.
  repeat match goal with
         | H : (_ <=? _) = true |- _ => apply Z.leb_le in H
         end.
  eexists. split; [reflexivity|].
  unfold Datetime.toordinal.
  cbn [Datetime.year Datetime.month Datetime.day Datetime.hour Datetime.minute
       Datetime.second].
  rewrite R.
  pose proof (Z.div_mod time_val 86400 ltac:(lia)) as E1.
  pose proof (Z.mod_pos_bound time_val 86400 ltac:(lia)) as B1.
  set (r := time_val mod 86400) in *.
  pose proof (Z.div_mod r 3600 ltac:(lia)) as E2.
  pose proof (Z.mod_pos_bound r 3600 ltac:(lia)) as B2.
  set (q := r mod 3600) in *.
  pose proof (Z.div_mod q 60 ltac:(lia)) as E3.
  pose proof (Z.mod_pos_bound q 60 ltac:(lia)) as B3.
  assert (0 <= r / 3600 < 24)
    by (split; [apply Z.div_pos; lia | apply Z.div_lt_upper_bound; lia]).
  assert (0 <= q / 60 < 60)
    by (split; [apply Z.div_pos; lia | apply Z.div_lt_upper_bound; lia]).
  repeat split; lia.
Qed.

Lemma timestamp_round_trip_witness :
  0 <= 742215263 < 2 ^ 32
  /\ exists dt,
      actual_datetime 742215263 = Some dt
      /\ 1 <= Datetime.month dt <= 12
      /\ 1 <= Datetime.day dt <= 31
      /\ 0 <= Datetime.hour dt < 24
      /\ 0 <= Datetime.minute dt < 60
      /\ 0 <= Datetime.second dt < 60
      /\ (Datetime.toordinal dt - Datetime.toordinal duid_epoch) * 86400
         + Datetime.hour dt * 3600 + Datetime.minute dt * 60 + Datetime.second dt
         = 742215263.
Proof.
  assert (R : 0 <= 742215263 < 2 ^ 32) by (cbn; lia).
  exact (conj R (timestamp_round_trip 742215263 R)).
Defined.

(** ** The text of a UUID, read back *)

Lemma hex_byte_shape (b : byte) :
  exists x y,
    PyBytes.hex_byte b = String x (String y EmptyString)
    /\ Ascii.eqb x "-" = false /\ Ascii.eqb y "-" = false.
Proof. destruct b; do 2 eexists; repeat split. Qed.

Lemma remove_hyphens_other (c : ascii) (s : string) :
  Ascii.eqb c "-" = false ->
  remove_hyphens (String c s) = String c (remove_hyphens s).
Proof. intros H. cbn [remove_hyphens]. rewrite H. reflexivity. Qed.

Lemma remove_hyphens_hyphen (s : string) :
  remove_hyphens (String "-" s) = remove_hyphens s.
Proof. reflexivity. Qed.

Ltac sixteen_bytes p H :=
  destruct p as
    [|c0 [|c1 [|c2 [|c3 [|c4 [|c5 [|c6 [|c7 [|c8 [|c9 [|c10 [|c11 [|c12 [|c13 [|c14 [|c15 [|cx cr]]]]]]]]]]]]]]]]];
  try discriminate H.

Ltac name_digits :=
  repeat match goal with
         | |- context [PyBytes.hex_byte ?c] =>
           let x := fresh "x" in
           let y := fresh "y" in
           let E := fresh "E" in
           let X := fresh "X" in
           let Y := fresh "Y" in
           destruct (hex_byte_shape c) as (x & y & E & X & Y);
           rewrite E; clear E
         end.

(** The shape of the canonical text of 16 bytes. *)
Lemma canonical_uuid_shape (payload : bytes) :
  List.length payload = 16%nat ->
  String.length (canonical_uuid payload) = 36%nat
  /\ get 8 (canonical_uuid payload) = Some "-"%char
  /\ get 13 (canonical_uuid payload) = Some "-"%char
  /\ get 18 (canonical_uuid payload) = Some "-"%char
  /\ get 23 (canonical_uuid payload) = Some "-"%char
  /\ remove_hyphens (canonical_uuid payload) = PyBytes.hex payload.
Proof.
  intros L. sixteen_bytes payload L.
  unfold canonical_uuid. cbn [PyBytes.hex]. name_digits.
  cbn [append substring].
  repeat split.
  repeat first [ rewrite remove_hyphens_other by assumption
               | rewrite remove_hyphens_hyphen ].
  reflexivity.
Qed.

(** X13.  The text printed for a UUID has 36 characters, with hyphens as
    the characters 8, 13, 18 and 23; without the hyphens it is the
    hexadecimal string of the 16 bytes, and [bytes.fromhex] gives the bytes
    back from it. *)
Theorem uuid_text_round_trip (payload : bytes) :
  List.length payload = 16%nat ->
  let text := Uuid.str (PyBytes.from_bytes_big payload) in
  String.length text = 36%nat
  /\ get 8 text = Some "-"%char
  /\ get 13 text = Some "-"%char
  /\ get 18 text = Some "-"%char
  /\ get 23 text = Some "-"%char
  /\ remove_hyphens text = PyBytes.hex payload
  /\ PyBytes.fromhex (remove_hyphens text) = Some payload.
Proof.
  intros L text. subst text. rewrite (uuid_str_canonical payload L).
  destruct (canonical_uuid_shape payload L) as (H0 & H1 & H2 & H3 & H4 & R).
  rewrite R, fromhex_hex. repeat split; assumption.
Qed.

Lemma uuid_text_round_trip_witness :
  List.length [x00; x11; x22; x33; x44; x55; x66; x77;
               x88; x99; xaa; xbb; xcc; xdd; xee; xff] = 16%nat
  /\ remove_hyphens
       (Uuid.str (PyBytes.from_bytes_big
                    [x00; x11; x22; x33; x44; x55; x66; x77;
                     x88; x99; xaa; xbb; xcc; xdd; xee; xff]))
     = "00112233445566778899aabbccddeeff".
Proof.
  split; [reflexivity|].
  rewrite (proj1 (proj2 (proj2 (proj2 (proj2 (proj2
            (uuid_text_round_trip
               [x00; x11; x22; x33; x44; x55; x66; x77;
                x88; x99; xaa; xbb; xcc; xdd; xee; xff] eq_refl))))))).
  reflexivity.
Defined.

(** ** The link-layer types, line by line *)

Lemma hardware_type_range (duid_bytes : bytes) : 0 <= hardware_type duid_bytes < 65536.
Proof.
  unfold hardware_type.
  pose proof (from_bytes_big_range (firstn 2 (skipn 2 duid_bytes))) as R.
  pose proof (firstn_le_length 2 (skipn 2 duid_bytes)) as F.
  assert (P : 256 ^ Z.of_nat (List.length (firstn 2 (skipn 2 duid_bytes))) <= 256 ^ 2)
    by (apply Z.pow_le_mono_r; lia).
  change (256 ^ 2) with 65536 in P. lia.
Qed.

Lemma hw_type_name (hw_type_code : Z) :
  dict_get hw_types hw_type_code "Unknown"
  = if hw_type_code =? 1 then "Ethernet" else "Unknown".
Proof.
  unfold hw_types. cbn [dict_get]. rewrite (Z.eqb_sym 1 hw_type_code). reflexivity.
Qed.

(** X14.  A DUID-LLT of eight bytes or more is decoded with status 0 in
    seven lines: the header, the type, the hardware type (the big-endian
    value of bytes 2 and 3, below 65536, named Ethernet when it is 1 and
    Unknown otherwise), the seconds (the big-endian value of bytes 4 to 7,
    below 2^32), the timestamp, and the address made of all the bytes from
    the eighth on. *)
Theorem llt_decoding (duid_hex_string : string) (duid_bytes : bytes) :
  discriminant duid_bytes = Some 1 ->
  (8 <= List.length duid_bytes)%nat ->
  let hw_type_code := PyBytes.from_bytes_big (firstn 2 (skipn 2 duid_bytes)) in
  let time_val := PyBytes.from_bytes_big (firstn 4 (skipn 4 duid_bytes)) in
  let lla_bytes := skipn 8 duid_bytes in
  decode duid_hex_string duid_bytes
  = {| output :=
         (header_lines duid_hex_string duid_bytes
          ++ [ type_line 1;
               ("Hardware Type: " ++ PyStr.str hw_type_code ++ " ["
                ++ (if (hw_type_code =? 1)%Z then "Ethernet" else "Unknown") ++ "]")%string;
               ("Seconds since midnight (UTC), January 1, 2000: "
                ++ PyStr.str time_val)%string;
               timestamp_line time_val;
               ("Link-layer Address: "
                ++ lla_rendering hw_type_code (Z.of_nat (List.length lla_bytes))
                                 lla_bytes)%string ])%list;
       status := 0 |}
  /\ 0 <= hw_type_code < 65536
  /\ 0 <= time_val < 2 ^ 32
  /\ List.length lla_bytes = (List.length duid_bytes - 8)%nat.
Proof.
  intros D L hw tv lla.
  rewrite decode_by_summary by lia.
  unfold summary. rewrite D. cbn [Z.eqb Pos.eqb].
  destruct (Nat.ltb_spec (List.length duid_bytes) 8); [lia|].
  cbn [fst snd]. unfold LLT_lines, hw_type_line. rewrite hw_type_name.
  split; [reflexivity|].
  split; [apply hardware_type_range|].
  split; [apply time_offset_range|].
  subst lla. apply length_skipn.
Qed.

Lemma llt_decoding_witness :
  discriminant [x00; x01; x00; x06; x2c; x3d; x4e; x5f; xaa; xbb] = Some 1
  /\ (8 <= List.length [x00; x01; x00; x06; x2c; x3d; x4e; x5f; xaa; xbb])%nat
  /\ decode "" [x00; x01; x00; x06; x2c; x3d; x4e; x5f; xaa; xbb]
     = {| output :=
            [ "Input DUID Hex: "; "Total DUID Length: 10 bytes";
              "DUID Type: 1 [DUID-LLT - Link-layer address plus time]";
              "Hardware Type: 6 [Unknown]";
              "Seconds since midnight (UTC), January 1, 2000: 742215263";
              "Calculated Timestamp (UTC): 2023-07-09T10:54:23+00:00";
              "Link-layer Address: aa:bb (Hex)" ];
          status := 0 |}.
Proof.
  assert (D : discriminant [x00; x01; x00; x06; x2c; x3d; x4e; x5f; xaa; xbb] = Some 1)
    by reflexivity.
  assert (L : (8 <= List.length [x00; x01; x00; x06; x2c; x3d; x4e; x5f; xaa; xbb])%nat)
    by (cbn; lia).
  split; [exact D|]. split; [exact L|].
  rewrite (proj1 (llt_decoding "" _ D L)). vm_compute. reflexivity.
Defined.

(** X15.  A DUID-LL of four bytes or more is decoded with status 0 in five
    lines: the header, the type, the hardware type (the big-endian value of
    bytes 2 and 3, below 65536, named Ethernet when it is 1 and Unknown
    otherwise) and the address made of all the bytes from the fourth on,
    which may be none. *)
Theorem ll_decoding (duid_hex_string : string) (duid_bytes : bytes) :
  discriminant duid_bytes = Some 3 ->
  (4 <= List.length duid_bytes)%nat ->
  let hw_type_code := PyBytes.from_bytes_big (firstn 2 (skipn 2 duid_bytes)) in
  let lla_bytes := skipn 4 duid_bytes in
  decode duid_hex_string duid_bytes
  = {| output :=
         (header_lines duid_hex_string duid_bytes
          ++ [ type_line 3;
               ("Hardware Type: " ++ PyStr.str hw_type_code ++ " ["
                ++ (if (hw_type_code =? 1)%Z then "Ethernet" else "Unknown") ++ "]")%string;
               ("Link-layer Address: "
                ++ lla_rendering hw_type_code (Z.of_nat (List.length lla_bytes))
                                 lla_bytes)%string ])%list;
       status := 0 |}
  /\ 0 <= hw_type_code < 65536
  /\ List.length lla_bytes = (List.length duid_bytes - 4)%nat.
Proof.
  intros D L hw lla.
  rewrite decode_by_summary by lia.
  unfold summary. rewrite D. cbn [Z.eqb Pos.eqb].
  destruct (Nat.ltb_spec (List.length duid_bytes) 4); [lia|].
  cbn [fst snd]. unfold LL_lines, hw_type_line. rewrite hw_type_name.
  split; [reflexivity|].
  split; [apply hardware_type_range|].
  subst lla. apply length_skipn.
Qed.

Lemma ll_decoding_witness :
  discriminant [x00; x03; x00; x01] = Some 3
  /\ (4 <= List.length [x00; x03; x00; x01])%nat
  /\ decode "" [x00; x03; x00; x01]
     = {| output :=
            [ "Input DUID Hex: "; "Total DUID Length: 4 bytes";
              "DUID Type: 3 [DUID-LL - Link-layer address]";
              "Hardware Type: 1 [Ethernet]";
              "Link-layer Address:  (Hex)" ];
          status := 0 |}.
Proof.
  assert (D : discriminant [x00; x03; x00; x01] = Some 3) by reflexivity.
  assert (L : (4 <= List.length [x00; x03; x00; x01])%nat) by (cbn; lia).
  split; [exact D|]. split; [exact L|].
  rewrite (proj1 (ll_decoding "" _ D L)). vm_compute. reflexivity.
Defined.

(** ** What is printed of bytes *)

Lemma hex_byte_digits (b : byte) (s : string) :
  all_chars is_hexdigit (PyBytes.hex_byte b ++ s) = all_chars is_hexdigit s
  /\ lower (PyBytes.hex_byte b ++ s) = (PyBytes.hex_byte b ++ lower s)%string
  /\ has_colon (PyBytes.hex_byte b ++ s) = has_colon s.
Proof. destruct b; repeat split. Qed.

(** X16.  The hexadecimal string printed of any bytes has two characters
    for each byte, all of them digits or the letters a to f in lower case,
    and no colon or other separator. *)
Theorem hex_digits_lowercase (bs : bytes) :
  String.length (PyBytes.hex bs) = (2 * List.length bs)%nat
  /\ all_chars is_hexdigit (PyBytes.hex bs) = true
  /\ lower (PyBytes.hex bs) = PyBytes.hex bs
  /\ has_colon (PyBytes.hex bs) = false.
Proof.
  split; [apply hex_length|].
  induction bs as [|b r (A & W & C)]; [repeat split|].
  cbn [PyBytes.hex]. destruct (hex_byte_digits b (PyBytes.hex r)) as (A' & W' & C').
  rewrite A', W', C', A, W, C. repeat split.
Qed.

(** ** Blank input and the spelling of the input *)

(** A string of colons and whitespace is normalized to no bytes. *)
Lemma blank_normalizes_to_nothing (s : string) :
  all_chars (fun c => Ascii.eqb c ":" || PyBytes.Py_ISSPACE c) s = true ->
  normalize s = Some [].
Proof.
  unfold normalize. induction s as [|c s IH]; [reflexivity|].
  cbn [all_chars PyStr.replace_colon]. intros H. apply andb_prop in H as [Hc Hs].
  destruct (Ascii.eqb c ":"); [apply IH; exact Hs|].
  cbn [orb] in Hc. rewrite fromhex_skips_space by exact Hc. apply IH. exact Hs.
Qed.

(** X17.  An argument with no digit at all, empty or made of colons and
    ASCII whitespace only, is not malformed: it is normalized to no bytes,
    and the script refuses it as too short, with 0 bytes, and status 1. *)
Theorem blank_input_too_short (argv0 duid_hex_string : string) :
  all_chars (fun c => Ascii.eqb c ":" || PyBytes.Py_ISSPACE c) duid_hex_string = true ->
  normalize duid_hex_string = Some []
  /\ main [argv0; duid_hex_string]
     = {| output :=
            [ "Error: DUID is too short (0 bytes). Must be at least 2 bytes for the type field." ];
          status := 1 |}.
Proof.
  intros H. pose proof (blank_normalizes_to_nothing _ H) as N.
  split; [exact N|]. unfold main. rewrite N. reflexivity.
Qed.

Lemma blank_input_too_short_witness :
  all_chars (fun c => Ascii.eqb c ":" || PyBytes.Py_ISSPACE c) " : " = true
  /\ normalize " : " = Some []
  /\ main ["dec.py"; " : "]
     = {| output :=
            [ "Error: DUID is too short (0 bytes). Must be at least 2 bytes for the type field." ];
          status := 1 |}.
Proof.
  assert (H : all_chars (fun c => Ascii.eqb c ":" || PyBytes.Py_ISSPACE c) " : " = true)
    by reflexivity.
  exact (conj H (blank_input_too_short "dec.py" " : " H)).
Defined.

(** X18.  Two spellings of the same bytes, of two bytes or more, are
    decoded alike: the runs differ in their first line only, which repeats
    the argument, and end with the same status. *)
Theorem spelling_only_in_echo (argv0 argv0' s s' : string) (duid_bytes : bytes) :
  normalize s = Some duid_bytes ->
  normalize s' = Some duid_bytes ->
  (2 <= List.length duid_bytes)%nat ->
  hd EmptyString (output (main [argv0; s])) = ("Input DUID Hex: " ++ s)%string
  /\ tl (output (main [argv0; s])) = tl (output (main [argv0'; s']))
  /\ status (main [argv0; s]) = status (main [argv0'; s']).
Proof.
  intros N N' L. unfold main. rewrite N, N'.
  rewrite !decode_by_summary by exact L.
  destruct (fst (fst (summary duid_bytes))); repeat split.
Qed.

Lemma spelling_only_in_echo_witness :
  normalize "00:03:00:01:AA:BB" = Some [x00; x03; x00; x01; xaa; xbb]
  /\ normalize "00030001 aabb" = Some [x00; x03; x00; x01; xaa; xbb]
  /\ (2 <= List.length [x00; x03; x00; x01; xaa; xbb])%nat
  /\ tl (output (main ["dec.py"; "00:03:00:01:AA:BB"]))
     = tl (output (main ["dec.py"; "00030001 aabb"])).
Proof.
  assert (N : normalize "00:03:00:01:AA:BB" = Some [x00; x03; x00; x01; xaa; xbb])
    by reflexivity.
  assert (N' : normalize "00030001 aabb" = Some [x00; x03; x00; x01; xaa; xbb])
    by reflexivity.
  assert (L : (2 <= List.length [x00; x03; x00; x01; xaa; xbb])%nat) by (cbn; lia).
  split; [exact N|]. split; [exact N'|]. split; [exact L|].
  exact (proj1 (proj2 (spelling_only_in_echo "dec.py" "dec.py" _ _ _ N N' L))).
Defined.
